(** * The PostgreSQL fuzzer bootstrap, [fuzzer_initialize.c]

    A shallow embedding of [projects/postgresql/fuzzer/fuzzer_initialize.c]
    and the properties of its two functions, [fuzzer_exit] and
    [FuzzerInitialize].

    Definitions come first.
    - [CString]: C strings, [%s] formatting and [snprintf] truncation, and
      the local buffers of [FuzzerInitialize].
    - [Shell]: the file system and the command interpreter behind [system].
    - The engine's types and [Call], the vocabulary of calls.
    - Section [Bootstrap]: the process state, the execution monad, the
      library operations, the two source functions and process exit.
    - The stages of the bootstrap as lists of calls, the initial state,
      plain identifiers, and [Scenario], a concrete run.

    The properties follow: strings and buffers, the shell, execution and
    its symbolic evaluation, and then the bootstrap itself. *)

From Stdlib Require Import ZArith String Ascii Lia.
From stdpp Require Import base option list gmap strings.

(** String append is computed by [simpl] throughout: the formats and the
    commands below are literals that must reduce. *)
#[local] Arguments String.append !s1 s2 : simpl nomatch.

(** ** C strings and [snprintf] *)

Module CString.

(** The double-quote character (byte 34), escaped in the C literals. *)
Definition dquote : string := String (ascii_of_nat 34) EmptyString.

(** The first [n] bytes of [s]. *)
Fixpoint take (n : nat) (s : string) : string :=
  match n, s with
  | S n', String c s' => String c (take n' s')
  | _, _ => EmptyString
  end.

(** Expansion of a format that uses only the [%s] conversion: each [%s]
    consumes the next argument, every other byte is copied. *)
Fixpoint format (fmt : string) (args : list string) : string :=
  match fmt with
  | EmptyString => EmptyString
  | String c rest =>
      if Ascii.eqb c "%"%char then
        match rest with
        | String d rest' =>
            if Ascii.eqb d "s"%char
            then hd EmptyString args +:+ format rest' (tl args)
            else String c (format rest args)
        | EmptyString => String c EmptyString
        end
      else String c (format rest args)
  end.

(** [snprintf(buf, size, fmt, ...)]: the contents of [buf] afterwards, as
    a NUL-terminated string.  At most [size - 1] bytes of the expansion
    are stored, followed by the terminator. *)
Definition snprintf (size : nat) (fmt : string) (args : list string) : string :=
  take (size - 1) (format fmt args).

(** Bytes a string occupies in a buffer, terminator included. *)
Definition footprint (s : string) : nat := S (String.length s).

End CString.

(** ** The stack buffers of [FuzzerInitialize] (source lines 49-61) *)

Definition sizeof_arg_path : nat := 50.
Definition sizeof_path_to_db : nat := 50.
Definition sizeof_untar : nat := 100.

(** Line 53. *)
Definition arg_path (dbname : string) : string :=
  CString.snprintf sizeof_arg_path "/tmp/%s/data" [dbname].

(** Line 54. *)
Definition path_to_db (dbname : string) : string :=
  CString.snprintf sizeof_path_to_db
    ("-D" +:+ CString.dquote +:+ "/tmp/%s/data" +:+ CString.dquote) [dbname].

(** Line 55. *)
Definition untar (dbname : string) : string :=
  CString.snprintf sizeof_untar
    "rm -rf /tmp/%s && mkdir /tmp/%s && tar -xvf data.tar.gz -C /tmp/%s"
    [dbname; dbname; dbname].

(** Lines 57-61: [argv[0 .. 3]]; [argv[4]] is the NULL sentinel and is
    represented by the end of the list. *)
Definition argv (dbname : string) : list string :=
  [ "tmp_install/usr/local/pgsql/bin/postgres";
    path_to_db dbname;
    "-F";
    "-k" +:+ CString.dquote +:+ "/tmp/pg_dbfuzz" +:+ CString.dquote ].

Definition argv0 : string := "tmp_install/usr/local/pgsql/bin/postgres".

(** ** The file system and the command interpreter behind [system]

    Modelled from the spec: the provisioning command recursively deletes
    any directory at the target path, recreates it, and extracts a
    compressed archive, found relative to the working directory, into it.

    [system] hands its argument to [sh -c].  The bootstrap issues one
    shape of command, three utilities joined by [&&], and the interpreter
    covers that shape: word splitting at spaces, [&&] lists, and the
    utilities [rm -rf], [mkdir] and [tar -xvf ... -C ...] acting on a file
    system given as a finite map from absolute paths to nodes.  Quoting,
    expansion and the other shell operators are not interpreted, so results
    about [sh] are stated for identifiers that are plain file names. *)

Module Shell.

Inductive node : Type :=
| Dir
| File (content : string).

Record filesystem : Type := mkFs {
  files : gmap (list string) node;   (* absolute path, root first *)
  cwd : list string                  (* current working directory *)
}.

(** [fields sep s]: the pieces of [s] between occurrences of [sep]. *)
Fixpoint fields (sep : ascii) (s : string) : list string :=
  match s with
  | EmptyString => [EmptyString]
  | String c s' =>
      if Ascii.eqb c sep then EmptyString :: fields sep s'
      else match fields sep s' with
           | f :: fs => String c f :: fs
           | [] => [String c EmptyString]
           end
  end.

Definition nonempty (s : string) : bool :=
  match s with EmptyString => false | _ => true end.

(** [free_of sep s]: the byte [sep] does not occur in [s]. *)
Fixpoint free_of (sep : ascii) (s : string) : bool :=
  match s with
  | EmptyString => true
  | String c s' => negb (Ascii.eqb c sep) && free_of sep s'
  end.

(** Word splitting of a command line at spaces. *)
Definition words (cmd : string) : list string :=
  List.filter nonempty (fields " "%char cmd).

(** The components of a path name; repeated and trailing slashes vanish. *)
Definition components (p : string) : list string :=
  List.filter nonempty (fields "/"%char p).

(** Path resolution: a leading slash makes the name absolute, anything
    else is relative to the working directory. *)
Definition resolve (wd : list string) (p : string) : list string :=
  match p with
  | String c _ => if Ascii.eqb c "/"%char then components p else wd ++ components p
  | EmptyString => wd
  end.

(** A path is a directory if it is the root or is recorded as one. *)
Definition is_dir (fs : gmap (list string) node) (p : list string) : bool :=
  match p with
  | [] => true
  | _ => match fs !! p with Some Dir => true | _ => false end
  end.

Definition parent (p : list string) : list string := removelast p.

(** [rm -rf target]: the node and everything below it disappear; a
    missing target is not an error. *)
Definition rm_rf (target : list string) (fs : gmap (list string) node)
  : gmap (list string) node :=
  filter (λ kv, ¬ target `prefix_of` kv.1) fs.

(** [mkdir target]: fails if the name is taken or the parent is not a
    directory. *)
Definition mkdir (target : list string) (fs : gmap (list string) node)
  : option (gmap (list string) node) :=
  match target with
  | [] => None
  | _ => match fs !! target with
         | Some _ => None
         | None => if is_dir fs (parent target)
                   then Some (<[target := Dir]> fs) else None
         end
  end.

(** Unpacking: every member is written below [dest], in archive order. *)
Definition extract (dest : list string) (members : list (list string * node))
    (fs : gmap (list string) node) : gmap (list string) node :=
  foldl (λ acc m, <[dest ++ m.1 := m.2]> acc) fs members.

Section Interpreter.

(** Decoding of the bytes of a compressed archive into its members, or
    [None] if the bytes are not an archive. *)
Variable tar_gz_members : string -> option (list (list string * node)).

(** [tar -xvf archive -C dest]. *)
Definition tar_xvf (archive dest : list string) (fs : gmap (list string) node)
  : option (gmap (list string) node) :=
  match fs !! archive with
  | Some (File bytes) =>
      match tar_gz_members bytes with
      | Some members =>
          if is_dir fs dest then Some (extract dest members fs) else None
      | None => None
      end
  | _ => None
  end.

Definition with_files (fs : filesystem) (r : option (gmap (list string) node))
    (failure : Z) : filesystem * Z :=
  match r with
  | Some f => (mkFs f (cwd fs), 0%Z)
  | None => (fs, failure)
  end.

(** One simple command.  Exit status 127 is the shell's answer for a
    command it cannot run. *)
Definition run_utility (args : list string) (fs : filesystem) : filesystem * Z :=
  match args with
  | [] => (fs, 0%Z)
  | cmd :: rest =>
      if String.eqb cmd "rm" then
        match rest with
        | [flag; p] =>
            if String.eqb flag "-rf"
            then (mkFs (rm_rf (resolve (cwd fs) p) (files fs)) (cwd fs), 0%Z)
            else (fs, 127%Z)
        | _ => (fs, 127%Z)
        end
      else if String.eqb cmd "mkdir" then
        match rest with
        | [p] => with_files fs (mkdir (resolve (cwd fs) p) (files fs)) 1%Z
        | _ => (fs, 127%Z)
        end
      else if String.eqb cmd "tar" then
        match rest with
        | [flag; a; flagC; d] =>
            if String.eqb flag "-xvf" && String.eqb flagC "-C"
            then with_files fs
                   (tar_xvf (resolve (cwd fs) a) (resolve (cwd fs) d) (files fs))
                   2%Z
            else (fs, 127%Z)
        | _ => (fs, 127%Z)
        end
      else (fs, 127%Z)
  end.

(** Splitting a word list at the [&&] operator. *)
Fixpoint and_list (ws : list string) : list (list string) :=
  match ws with
  | [] => [[]]
  | w :: ws' =>
      if String.eqb w "&&" then [] :: and_list ws'
      else match and_list ws' with
           | c :: cs => (w :: c) :: cs
           | [] => [[w]]
           end
  end.

(** [a && b && ...]: stop at the first command that fails. *)
Fixpoint run_and_list (cmds : list (list string)) (fs : filesystem)
  : filesystem * Z :=
  match cmds with
  | [] => (fs, 0%Z)
  | c :: cs =>
      let r := run_utility c fs in
      if Z.eqb r.2 0 then
        match cs with [] => r | _ => run_and_list cs r.1 end
      else r
  end.

(** [sh -c cmd]: resulting file system and exit status. *)
Definition sh (cmd : string) (fs : filesystem) : filesystem * Z :=
  run_and_list (and_list (words cmd)) fs.

End Interpreter.

End Shell.

(** ** Engine types the bootstrap mentions

    Modelled from the spec: the enumerations and structures of the engine's
    headers ([miscadmin.h], [utils/guc.h], [tcop/dest.h], [lib/stringinfo.h],
    [utils/memutils.h]) that the source names; the headers are not part of
    the repository.  Processing mode has an early bootstrap state and a
    normal state, configuration is applied at the postmaster level, the
    response destination can be set to discard. *)

Inductive ProcessingMode : Type :=
| BootstrapProcessing
| InitProcessing
| NormalProcessing.

Inductive GucContext : Type :=
| PGC_INTERNAL
| PGC_POSTMASTER
| PGC_SIGHUP
| PGC_SU_BACKEND
| PGC_BACKEND
| PGC_SUSET
| PGC_USERSET.

Inductive CommandDest : Type :=
| DestNone
| DestDebug
| DestRemote.

Inductive sigset : Type :=
| UnBlockSig
| BlockSig
| StartupBlockSig.

Definition InvalidOid : Z := 0.

(** A growable string buffer: [data] points at a chunk of an arena, named
    by arena and position in it. *)
Record StringInfoData : Type := mkStringInfo {
  data : option (nat * nat);
  len : Z;
  maxlen : Z;
  cursor : Z
}.

(** A memory arena. *)
Record MemoryContextData : Type := mkContext {
  mc_name : string;
  mc_parent : option nat;
  mc_chunks : list Z        (* sizes of the chunks handed out, oldest first *)
}.

(** The functions the source passes to [atexit]. *)
Inductive atexit_function : Type :=
| fuzzer_exit_fn.

#[global] Instance ProcessingMode_eq_dec : EqDecision ProcessingMode.
Proof. solve_decision. Defined.
#[global] Instance GucContext_eq_dec : EqDecision GucContext.
Proof. solve_decision. Defined.
#[global] Instance CommandDest_eq_dec : EqDecision CommandDest.
Proof. solve_decision. Defined.
#[global] Instance sigset_eq_dec : EqDecision sigset.
Proof. solve_decision. Defined.
#[global] Instance atexit_function_eq_dec : EqDecision atexit_function.
Proof. solve_decision. Defined.

(** ** The calls of the bootstrap

    One constructor per function or macro the source invokes, with the
    arguments as the source passes them.  A string argument is recorded by
    its contents, [None] standing for a NULL pointer.  The size triple
    [ALLOCSET_DEFAULT_SIZES], the same in both arena creations, is not
    recorded. *)

Module Call.

Inductive t : Type :=
| system (cmd : string)
| get_progname (argv0 : string)
| MemoryContextInit
| get_user_name_or_exit (progname : option string)
| strdup (s : string)
| InitStandaloneProcess (argv0 : string)
| SetProcessingMode (mode : ProcessingMode)
| InitializeGUCOptions
| process_postgres_switches (argc : Z) (argv : list string)
    (ctx : GucContext) (dbname : option string)
| SelectConfigFiles (userDoption : string) (progname : option string)
| checkDataDir
| ChangeToDataDir
| CreateDataDirLockFile (amPostmaster : bool)
| LocalProcessControlFile (reset : bool)
| InitializeMaxBackends
| BaseInit
| InitProcess
| PG_SETMASK (mask : sigset)
| InitPostgres (in_dbname : string) (dboid : Z) (username : option string)
    (useroid : Z) (out_dbname : option string)
    (override_allow_connections : bool)
| BeginReportingGUCOptions
| process_session_preload_libraries
| AllocSetContextCreate (parent : option nat) (name : string)
| MemoryContextSwitchTo (context : option nat)
| initStringInfo
| GetCurrentTimestamp
| atexit (f : atexit_function)
| pfree (pointer : nat).

#[global] Instance eq_dec : EqDecision t.
Proof. solve_decision. Defined.

End Call.

(** ** Process state and execution *)

(** The engine and the operating system are collaborators.  Their private
    state is abstract, and so is what each call does with it.
    - [collab c fs e]: the call [c] made with file system [fs] and private
      state [e] either returns, leaving a new file system and private state,
      or ([None]) ends the process through the engine's fatal-error path.
    - [get_user_name e]: the name of the effective user, if the system
      knows one.
    - [clock e]: the reading of the system clock.
    - [malloc_ok e n]: whether the C allocator can hand out [n] bytes.
    - [tar_gz_members]: decoding of archive bytes, see [Shell.tar_xvf]. *)
Record environment (engine : Type) : Type := mkEnv {
  collab : Call.t -> Shell.filesystem -> engine -> option (Shell.filesystem * engine);
  get_user_name : engine -> option string;
  clock : engine -> Z;
  malloc_ok : engine -> nat -> bool;
  tar_gz_members : string -> option (list (list string * Shell.node))
}.

Arguments mkEnv {engine} collab get_user_name clock malloc_ok tar_gz_members.
Arguments collab {engine} e c fs st.
Arguments get_user_name {engine} e st.
Arguments clock {engine} e st.
Arguments malloc_ok {engine} e st n.
Arguments tar_gz_members {engine} e bytes.

Section Bootstrap.

Context {engine : Type} (env : environment engine).

(** The globals of the source file (lines 38-41), the engine globals the
    source reads or assigns, and the parts of the C runtime and of the
    system it acts on. *)
Record world : Type := mkWorld {
  progname : option string;   (* line 38 *)
  row_description_context : option nat;   (* line 39 *)
  row_description_buf : StringInfoData;   (* line 40 *)
  username : option nat;   (* line 41: pointer to a heap block, [None] is NULL *)
  TopMemoryContext : option nat;
  CurrentMemoryContext : option nat;
  MessageContext : option nat;
  Mode : ProcessingMode;
  PgStartTime : Z;
  whereToSendOutput : CommandDest;
  Log_destination : Z;
  contexts : list MemoryContextData;   (* the arenas created so far; an arena is named by its index *)
  heap : list (option string);   (* malloc blocks by address; [None] once released *)
  atexit_registered : list atexit_function;   (* in registration order *)
  fs : Shell.filesystem;
  eng : engine;   (* private state of the engine and the operating system *)
  trace : list Call.t   (* the calls that have returned, oldest first *)
}.

Definition set_progname (v : option string) (w : world) : world :=
  mkWorld v (row_description_context w) (row_description_buf w) (username w)
    (TopMemoryContext w) (CurrentMemoryContext w) (MessageContext w) (Mode w)
    (PgStartTime w) (whereToSendOutput w) (Log_destination w) (contexts w)
    (heap w) (atexit_registered w) (fs w) (eng w)
    (trace w).

Definition set_row_description_context (v : option nat) (w : world) : world :=
  mkWorld (progname w) v (row_description_buf w) (username w)
    (TopMemoryContext w) (CurrentMemoryContext w) (MessageContext w) (Mode w)
    (PgStartTime w) (whereToSendOutput w) (Log_destination w) (contexts w)
    (heap w) (atexit_registered w) (fs w) (eng w)
    (trace w).

Definition set_row_description_buf (v : StringInfoData) (w : world) : world :=
  mkWorld (progname w) (row_description_context w) v (username w)
    (TopMemoryContext w) (CurrentMemoryContext w) (MessageContext w) (Mode w)
    (PgStartTime w) (whereToSendOutput w) (Log_destination w) (contexts w)
    (heap w) (atexit_registered w) (fs w) (eng w)
    (trace w).

Definition set_username (v : option nat) (w : world) : world :=
  mkWorld (progname w) (row_description_context w) (row_description_buf w) v
    (TopMemoryContext w) (CurrentMemoryContext w) (MessageContext w) (Mode w)
    (PgStartTime w) (whereToSendOutput w) (Log_destination w) (contexts w)
    (heap w) (atexit_registered w) (fs w) (eng w)
    (trace w).

Definition set_TopMemoryContext (v : option nat) (w : world) : world :=
  mkWorld (progname w) (row_description_context w) (row_description_buf w) (username w)
    v (CurrentMemoryContext w) (MessageContext w) (Mode w)
    (PgStartTime w) (whereToSendOutput w) (Log_destination w) (contexts w)
    (heap w) (atexit_registered w) (fs w) (eng w)
    (trace w).

Definition set_CurrentMemoryContext (v : option nat) (w : world) : world :=
  mkWorld (progname w) (row_description_context w) (row_description_buf w) (username w)
    (TopMemoryContext w) v (MessageContext w) (Mode w)
    (PgStartTime w) (whereToSendOutput w) (Log_destination w) (contexts w)
    (heap w) (atexit_registered w) (fs w) (eng w)
    (trace w).

Definition set_MessageContext (v : option nat) (w : world) : world :=
  mkWorld (progname w) (row_description_context w) (row_description_buf w) (username w)
    (TopMemoryContext w) (CurrentMemoryContext w) v (Mode w)
    (PgStartTime w) (whereToSendOutput w) (Log_destination w) (contexts w)
    (heap w) (atexit_registered w) (fs w) (eng w)
    (trace w).

Definition set_Mode (v : ProcessingMode) (w : world) : world :=
  mkWorld (progname w) (row_description_context w) (row_description_buf w) (username w)
    (TopMemoryContext w) (CurrentMemoryContext w) (MessageContext w) v
    (PgStartTime w) (whereToSendOutput w) (Log_destination w) (contexts w)
    (heap w) (atexit_registered w) (fs w) (eng w)
    (trace w).

Definition set_PgStartTime (v : Z) (w : world) : world :=
  mkWorld (progname w) (row_description_context w) (row_description_buf w) (username w)
    (TopMemoryContext w) (CurrentMemoryContext w) (MessageContext w) (Mode w)
    v (whereToSendOutput w) (Log_destination w) (contexts w)
    (heap w) (atexit_registered w) (fs w) (eng w)
    (trace w).

Definition set_whereToSendOutput (v : CommandDest) (w : world) : world :=
  mkWorld (progname w) (row_description_context w) (row_description_buf w) (username w)
    (TopMemoryContext w) (CurrentMemoryContext w) (MessageContext w) (Mode w)
    (PgStartTime w) v (Log_destination w) (contexts w)
    (heap w) (atexit_registered w) (fs w) (eng w)
    (trace w).

Definition set_Log_destination (v : Z) (w : world) : world :=
  mkWorld (progname w) (row_description_context w) (row_description_buf w) (username w)
    (TopMemoryContext w) (CurrentMemoryContext w) (MessageContext w) (Mode w)
    (PgStartTime w) (whereToSendOutput w) v (contexts w)
    (heap w) (atexit_registered w) (fs w) (eng w)
    (trace w).

Definition set_contexts (v : list MemoryContextData) (w : world) : world :=
  mkWorld (progname w) (row_description_context w) (row_description_buf w) (username w)
    (TopMemoryContext w) (CurrentMemoryContext w) (MessageContext w) (Mode w)
    (PgStartTime w) (whereToSendOutput w) (Log_destination w) v
    (heap w) (atexit_registered w) (fs w) (eng w)
    (trace w).

Definition set_heap (v : list (option string)) (w : world) : world :=
  mkWorld (progname w) (row_description_context w) (row_description_buf w) (username w)
    (TopMemoryContext w) (CurrentMemoryContext w) (MessageContext w) (Mode w)
    (PgStartTime w) (whereToSendOutput w) (Log_destination w) (contexts w)
    v (atexit_registered w) (fs w) (eng w)
    (trace w).

Definition set_atexit_registered (v : list atexit_function) (w : world) : world :=
  mkWorld (progname w) (row_description_context w) (row_description_buf w) (username w)
    (TopMemoryContext w) (CurrentMemoryContext w) (MessageContext w) (Mode w)
    (PgStartTime w) (whereToSendOutput w) (Log_destination w) (contexts w)
    (heap w) v (fs w) (eng w)
    (trace w).

Definition set_fs (v : Shell.filesystem) (w : world) : world :=
  mkWorld (progname w) (row_description_context w) (row_description_buf w) (username w)
    (TopMemoryContext w) (CurrentMemoryContext w) (MessageContext w) (Mode w)
    (PgStartTime w) (whereToSendOutput w) (Log_destination w) (contexts w)
    (heap w) (atexit_registered w) v (eng w)
    (trace w).

Definition set_eng (v : engine) (w : world) : world :=
  mkWorld (progname w) (row_description_context w) (row_description_buf w) (username w)
    (TopMemoryContext w) (CurrentMemoryContext w) (MessageContext w) (Mode w)
    (PgStartTime w) (whereToSendOutput w) (Log_destination w) (contexts w)
    (heap w) (atexit_registered w) (fs w) v
    (trace w).

Definition set_trace (v : list Call.t) (w : world) : world :=
  mkWorld (progname w) (row_description_context w) (row_description_buf w) (username w)
    (TopMemoryContext w) (CurrentMemoryContext w) (MessageContext w) (Mode w)
    (PgStartTime w) (whereToSendOutput w) (Log_destination w) (contexts w)
    (heap w) (atexit_registered w) (fs w) (eng w)
    v.


(** *** The execution monad

    A computation takes the process state and either returns a value with
    the new state, or does not return: the process has been ended by a
    collaborator's fatal-error path ([Fatal], naming the call that did not
    return), or the call has no defined behaviour ([Undefined]). *)

Inductive halt : Type :=
| Fatal (c : Call.t)
| Undefined (c : Call.t).

Inductive outcome (A : Type) : Type :=
| Returned (a : A) (w : world)
| Terminated (h : halt) (w : world).

Arguments Returned {A} a w.
Arguments Terminated {A} h w.

Definition M (A : Type) : Type := world -> outcome A.

Definition ret {A : Type} (a : A) : M A := fun w => Returned a w.

Definition bind {A B : Type} (m : M A) (k : A -> M B) : M B :=
  fun w =>
    match m w with
    | Returned a w' => k a w'
    | Terminated h w' => Terminated h w'
    end.

Notation "x <- m ;; k" := (bind m (fun x => k))
  (at level 100, m at next level, right associativity).
Notation "m ;;; k" := (bind m (fun _ => k))
  (at level 100, right associativity).

Definition gets {A : Type} (f : world -> A) : M A := fun w => Returned (f w) w.
Definition modify (f : world -> world) : M unit := fun w => Returned tt (f w).
Definition stop {A : Type} (h : halt) : M A := fun w => Terminated h w.

(** The state in which a computation ended, returned or not. *)
Definition final {A : Type} (o : outcome A) : world :=
  match o with
  | Returned _ w => w
  | Terminated _ w => w
  end.

(** A call that has returned is appended to the trace. *)
Definition log (c : Call.t) : M unit :=
  modify (fun w => set_trace (trace w ++ [c]) w).

(** A call into a collaborator: it returns, with the private state and the
    file system it leaves, or it ends the process.  A collaborator acts on
    these two only: the globals the bootstrap reads and assigns change
    through the operations below and through the source's assignments. *)
Definition invoke (c : Call.t) : M unit :=
  fun w =>
    match collab env c (fs w) (eng w) with
    | Some (fs', e') => log c (set_eng e' (set_fs fs' w))
    | None => Terminated (Fatal c) w
    end.

(** *** Library operations with a modelled effect *)

(** Modelled from the spec: [system] runs the wipe-and-extract command
    through the shell; its exit status is the value returned. *)
Definition system (cmd : string) : M Z :=
  fun w =>
    let r := Shell.sh (tar_gz_members env) cmd (fs w) in
    Returned r.2 (set_trace (trace w ++ [Call.system cmd]) (set_fs r.1 w)).

(** Modelled from the spec: program name resolution derives the short name
    of a binary path, its last component. *)
Definition get_progname (argv0 : string) : M string :=
  log (Call.get_progname argv0) ;;;
  ret (List.last (Shell.fields "/"%char argv0) argv0).

(** Modelled from the spec: the top-level memory-arena subsystem is
    initialised; the top-level arena is created with no parent and is made
    the current arena.  The call does not return if the arena cannot be
    had. *)
Definition MemoryContextInit : M unit :=
  invoke Call.MemoryContextInit ;;;
  modify (fun w =>
    let top := length (contexts w) in
    set_contexts
      (contexts w ++ [mkContext "TopMemoryContext" None []])
      (set_CurrentMemoryContext (Some top)
         (set_TopMemoryContext (Some top) w))).

(** Modelled from the spec: identity resolution returns the name of the
    user running the process and ends the process if there is none. *)
Definition get_user_name_or_exit (pn : option string) : M string :=
  fun w =>
    match get_user_name env (eng w) with
    | Some name => Returned name
                     (set_trace (trace w ++ [Call.get_user_name_or_exit pn]) w)
    | None => Terminated (Fatal (Call.get_user_name_or_exit pn)) w
    end.

(** [strdup]: a fresh block holding a copy of the string, or NULL when the
    allocator has no room. *)
Definition strdup (s0 : string) : M (option nat) :=
  log (Call.strdup s0) ;;;
  fun w =>
    if malloc_ok env (eng w) (CString.footprint s0)
    then Returned (Some (length (heap w))) (set_heap (heap w ++ [Some s0]) w)
    else Returned None w.

(** The string a [char *] points at, for the record of a call. *)
Definition deref (w : world) (p : option nat) : option string :=
  match p with
  | Some a => mjoin (heap w !! a)
  | None => None
  end.

(** Modelled from the spec: [pfree] releases a block.  Releasing a block
    that is not live (never handed out, or released before) has no defined
    behaviour. *)
Definition pfree (p : nat) : M unit :=
  fun w =>
    match heap w !! p with
    | Some (Some _) =>
        Returned tt (set_trace (trace w ++ [Call.pfree p])
                       (set_heap (<[p := None]> (heap w)) w))
    | _ => Terminated (Undefined (Call.pfree p)) w
    end.

(** Modelled from the spec: the processing-mode macro assigns the global. *)
Definition SetProcessingMode (mode : ProcessingMode) : M unit :=
  modify (set_Mode mode) ;;;
  log (Call.SetProcessingMode mode).

(** Modelled from the spec: a new, empty arena is created as a child of
    [parent]; the call does not return if the arena cannot be had. *)
Definition AllocSetContextCreate (parent : option nat) (name : string) : M (option nat) :=
  invoke (Call.AllocSetContextCreate parent name) ;;;
  fun w =>
    Returned (Some (length (contexts w)))
      (set_contexts (contexts w ++ [mkContext name parent []]) w).

(** Modelled from the spec: switching the current arena assigns a global
    and hands back the arena that was current. *)
Definition MemoryContextSwitchTo (context : option nat) : M (option nat) :=
  old <- gets CurrentMemoryContext ;;
  modify (set_CurrentMemoryContext context) ;;;
  log (Call.MemoryContextSwitchTo context) ;;;
  ret old.

(** The size a fresh string buffer starts with, the engine's default. *)
Definition initial_buffer_size : Z := 1024.

(** Modelled from the spec: the buffer is pre-sized from the current arena
    and starts with zero length.  With no current arena the allocation has
    no defined behaviour. *)
Definition initStringInfo : M StringInfoData :=
  cur <- gets CurrentMemoryContext ;;
  ctxs <- gets contexts ;;
  match cur with
  | Some c =>
      match ctxs !! c with
      | Some d =>
          invoke Call.initStringInfo ;;;
          modify (set_contexts
                    (<[c := mkContext (mc_name d) (mc_parent d)
                              (mc_chunks d ++ [initial_buffer_size])]> ctxs)) ;;;
          ret (mkStringInfo (Some (c, length (mc_chunks d)))
                 0 initial_buffer_size 0)
      | None => stop (Undefined Call.initStringInfo)
      end
  | None => stop (Undefined Call.initStringInfo)
  end.

(** Modelled from the spec: the timestamp is the reading of the clock. *)
Definition GetCurrentTimestamp : M Z :=
  log Call.GetCurrentTimestamp ;;;
  gets (fun w => clock env (eng w)).

(** [atexit]: the function is added to those run at process exit. *)
Definition atexit (f : atexit_function) : M Z :=
  modify (fun w => set_atexit_registered (atexit_registered w ++ [f]) w) ;;;
  log (Call.atexit f) ;;;
  ret 0%Z.

(** *** The source functions *)

(** Lines 43-46. *)
Definition fuzzer_exit : M unit :=
  u <- gets username ;;
  match u with
  | Some p => pfree p
  | None => ret tt
  end.

(** The statements of [FuzzerInitialize] from line 63 on, each with the
    source line it starts at.  Lines 53-61 fill the local buffers and are
    the definitions [arg_path], [path_to_db], [untar] and [argv] above. *)
Definition FuzzerInitialize_body (dbname : string) : list (nat * M unit) :=
  [ (63, system (untar dbname) ;;; ret tt);
    (65, p <- get_progname (nth 0 (argv dbname) EmptyString) ;;
         modify (set_progname (Some p)));
    (66, MemoryContextInit);
    (68, pn <- gets progname ;;
         name <- get_user_name_or_exit pn ;;
         p <- strdup name ;;
         modify (set_username p));
    (70, invoke (Call.InitStandaloneProcess (nth 0 (argv dbname) EmptyString)));
    (71, SetProcessingMode InitProcessing);
    (72, invoke Call.InitializeGUCOptions);
    (73, invoke (Call.process_postgres_switches 4 (argv dbname) PGC_POSTMASTER None));
    (75, pn <- gets progname ;;
         invoke (Call.SelectConfigFiles (arg_path dbname) pn));
    (77, invoke Call.checkDataDir);
    (78, invoke Call.ChangeToDataDir);
    (79, invoke (Call.CreateDataDirLockFile false));
    (80, invoke (Call.LocalProcessControlFile false));
    (81, invoke Call.InitializeMaxBackends);
    (83, invoke Call.BaseInit);
    (84, invoke Call.InitProcess);
    (85, invoke (Call.PG_SETMASK UnBlockSig));
    (86, u <- gets (fun w => deref w (username w)) ;;
         invoke (Call.InitPostgres "dbfuzz" InvalidOid u InvalidOid None false));
    (88, SetProcessingMode NormalProcessing);
    (90, invoke Call.BeginReportingGUCOptions);
    (91, invoke Call.process_session_preload_libraries);
    (93, top <- gets TopMemoryContext ;;
         c <- AllocSetContextCreate top "MessageContext" ;;
         modify (set_MessageContext c));
    (96, top <- gets TopMemoryContext ;;
         c <- AllocSetContextCreate top "RowDescriptionContext" ;;
         modify (set_row_description_context c));
    (99, c <- gets row_description_context ;;
         MemoryContextSwitchTo c ;;; ret tt);
    (100, b <- initStringInfo ;;
          modify (set_row_description_buf b));
    (101, top <- gets TopMemoryContext ;;
          MemoryContextSwitchTo top ;;; ret tt);
    (103, t <- GetCurrentTimestamp ;;
          modify (set_PgStartTime t));
    (104, modify (set_whereToSendOutput DestNone));
    (105, modify (set_Log_destination 0));
    (106, atexit fuzzer_exit_fn ;;; ret tt) ].

(** Sequential execution of labelled statements. *)
Fixpoint exec (body : list (nat * M unit)) : M unit :=
  match body with
  | [] => ret tt
  | (_, m) :: rest => m ;;; exec rest
  end.

(** Lines 48-107. *)
Definition FuzzerInitialize (dbname : string) : M Z :=
  exec (FuzzerInitialize_body dbname) ;;;
  ret 0%Z.

(** The statements that start at or before source line [line]. *)
Fixpoint upto (line : nat) (body : list (nat * M unit)) : list (nat * M unit) :=
  match body with
  | [] => []
  | (l, m) :: rest => if l <=? line then (l, m) :: upto line rest else []
  end.

(** The statements that start after source line [line]. *)
Fixpoint after (line : nat) (body : list (nat * M unit)) : list (nat * M unit) :=
  match body with
  | [] => []
  | (l, m) :: rest => if l <=? line then after line rest else (l, m) :: rest
  end.

(** Execution of [FuzzerInitialize] up to and including the statement that
    starts at source line [line]. *)
Definition run_to (line : nat) (dbname : string) : M unit :=
  exec (upto line (FuzzerInitialize_body dbname)).

(** [I] holds of the state a computation ends in, returned or not,
    whenever it holds of the state it starts in. *)
Definition preserves {A : Type} (I : world -> Prop) (m : M A) : Prop :=
  forall w, I w -> I (final (m w)).

(** *** Process exit *)

Definition atexit_code (f : atexit_function) : M unit :=
  match f with
  | fuzzer_exit_fn => fuzzer_exit
  end.

(** At process exit the registered functions run, last registered first. *)
Definition run_atexit : M unit :=
  hooks <- gets atexit_registered ;;
  exec (map (fun f => (0, atexit_code f)) (rev hooks)).

End Bootstrap.

Arguments world : clear implicits.
Arguments outcome : clear implicits.
Arguments M : clear implicits.
Arguments Returned {engine A} a w.
Arguments Terminated {engine A} h w.

(** ** The stages of the bootstrap, as calls

    The calls of the Global State Initializer, of the Data Directory Binder
    and of the Backend Attach stage, in source order (lines 66-75, 77-81 and
    83-86), with the arguments the source passes. *)

Definition global_state_initializer (dbname : string) : list Call.t :=
  [ Call.MemoryContextInit;
    Call.InitStandaloneProcess argv0;
    Call.SetProcessingMode InitProcessing;
    Call.InitializeGUCOptions;
    Call.process_postgres_switches 4 (argv dbname) PGC_POSTMASTER None;
    Call.SelectConfigFiles (arg_path dbname) (Some "postgres") ].

Definition data_directory_binder : list Call.t :=
  [ Call.checkDataDir;
    Call.ChangeToDataDir;
    Call.CreateDataDirLockFile false;
    Call.LocalProcessControlFile false;
    Call.InitializeMaxBackends ].

Definition backend_attach (user : option string) : list Call.t :=
  [ Call.BaseInit;
    Call.InitProcess;
    Call.PG_SETMASK UnBlockSig;
    Call.InitPostgres "dbfuzz" InvalidOid user InvalidOid None false ].

(** The calls that belong to the Global State Initializer. *)
Definition is_gsi_call (c : Call.t) : bool :=
  match c with
  | Call.MemoryContextInit
  | Call.InitStandaloneProcess _
  | Call.SetProcessingMode InitProcessing
  | Call.InitializeGUCOptions
  | Call.process_postgres_switches _ _ _ _
  | Call.SelectConfigFiles _ _ => true
  | _ => false
  end.

(** The calls that allocate: from the C heap or from an arena. *)
Definition is_allocation (c : Call.t) : bool :=
  match c with
  | Call.strdup _
  | Call.AllocSetContextCreate _ _
  | Call.initStringInfo => true
  | _ => false
  end.

Definition is_MemoryContextInit (c : Call.t) : bool :=
  match c with
  | Call.MemoryContextInit => true
  | _ => false
  end.

(** No allocation in the trace comes before the arena subsystem is up;
    [seen] tells whether it was up before the trace began. *)
Fixpoint init_before_alloc (seen : bool) (tr : list Call.t) : bool :=
  match tr with
  | [] => true
  | c :: rest =>
      (negb (is_allocation c) || seen)
      && init_before_alloc (seen || is_MemoryContextInit c) rest
  end.

(** Every collaborator call that returns takes time on the clock. *)
Definition clock_advances {engine : Type} (env : environment engine) : Prop :=
  forall c f e f' e',
    collab env c f e = Some (f', e') -> (clock env e < clock env e')%Z.

(** ** The state at process start

    The static initialisers of the source file (lines 38-41: all three
    pointers NULL, the buffer zeroed) and of the engine's globals. *)
Definition initial_world {engine : Type} (f : Shell.filesystem) (e : engine)
  : world engine :=
  mkWorld None None (mkStringInfo None 0 0 0) None
    None None None InitProcessing
    0 DestDebug 1 []
    [] [] f e
    [].

(** ** Plain identifiers

    Identifiers that are a single file name made of letters, digits and
    underscores: the shell and the path resolution treat them literally. *)
Definition ident_char (c : ascii) : bool :=
  let n := nat_of_ascii c in
  ((48 <=? n) && (n <=? 57)) || ((65 <=? n) && (n <=? 90))
  || ((97 <=? n) && (n <=? 122)) || (n =? 95).

Fixpoint all_chars (p : ascii -> bool) (s : string) : bool :=
  match s with
  | EmptyString => true
  | String c s' => p c && all_chars p s'
  end.

Definition plain_identifier (s : string) : bool :=
  Shell.nonempty s && all_chars ident_char s.

(** The names the source means to build from an identifier: the data
    directory of line 53 and the command of line 55, untruncated. *)
Definition data_dir_name (dbname : string) : string :=
  "/tmp/" +:+ dbname +:+ "/data".

Definition provisioning_command (dbname : string) : string :=
  "rm -rf /tmp/" +:+ dbname +:+ " && mkdir /tmp/" +:+ dbname
  +:+ " && tar -xvf data.tar.gz -C /tmp/" +:+ dbname.

(** The directory [/tmp/{identifier}] and the archive the provisioner reads. *)
Definition target_dir (dbname : string) : list string := ["tmp"; dbname].
Definition archive_path (f : Shell.filesystem) : list string :=
  Shell.cwd f ++ ["data.tar.gz"].

(** ** A concrete run

    The scenario of the specification: identifier [fz1], the snapshot
    archive present in the working directory, a stale tree left under
    [/tmp/fz1], and collaborators that all return. *)
Module Scenario.

Definition snapshot : list (list string * Shell.node) :=
  [ (["data"], Shell.Dir);
    (["data"; "PG_VERSION"], Shell.File "13");
    (["data"; "global"], Shell.Dir);
    (["data"; "global"; "pg_control"], Shell.File "control") ].

Definition decode (bytes : string) : option (list (list string * Shell.node)) :=
  if String.eqb bytes "snapshot" then Some snapshot else None.

Definition disk : Shell.filesystem :=
  Shell.mkFs
    (list_to_map
       [ (["tmp"], Shell.Dir);
         (["work"], Shell.Dir);
         (["work"; "data.tar.gz"], Shell.File "snapshot");
         (["tmp"; "fz1"], Shell.Dir);
         (["tmp"; "fz1"; "stale"], Shell.File "old") ])
    ["work"].

(** Every collaborator call returns and takes one tick of the clock. *)
Definition env : environment nat :=
  mkEnv (fun _ f e => Some (f, S e))
        (fun _ => Some "fuzz")
        (fun e => Z.of_nat e)
        (fun _ _ => true)
        decode.

(** As [env], but the data directory is locked by another process: taking
    the lock file is fatal. *)
Definition locked_env : environment nat :=
  mkEnv (fun c f e =>
           match c with
           | Call.CreateDataDirLockFile _ => None
           | _ => Some (f, S e)
           end)
        (fun _ => Some "fuzz")
        (fun e => Z.of_nat e)
        (fun _ _ => true)
        decode.

Definition boot : world nat := initial_world disk 0.

(** The states in which the two runs end. *)
Definition finished : world nat := final (FuzzerInitialize env "fz1" boot).
Definition refused : world nat := final (FuzzerInitialize locked_env "fz1" boot).

(** States on the way: after the Data Directory Binder (line 81), after the
    row-description arena is created (line 96), after its buffer is
    initialised (line 100) and after the timestamp is taken (line 103). *)
Definition after_binder : world nat := final (run_to env 81 "fz1" boot).
Definition after_arena : world nat := final (run_to env 96 "fz1" boot).
Definition after_buffer : world nat := final (run_to env 100 "fz1" boot).
Definition after_capture : world nat := final (run_to env 103 "fz1" boot).

(** Two identifiers of 48 bytes that differ only after byte 44, and one of
    14 bytes. *)
Definition long_one : string :=
  "aaaaaaaaaaaaaaaaaaaaaaaaaaaaaaaaaaaaaaaaaaaa_one".
Definition long_two : string :=
  "aaaaaaaaaaaaaaaaaaaaaaaaaaaaaaaaaaaaaaaaaaaa_two".
Definition fourteen : string := "fuzz_target_01".

End Scenario.

(** ** The whole sequence of calls

    The calls a completed [FuzzerInitialize] makes, in source order (lines
    63-106): [name] is the user name the system reports, [user] the string
    handed to [InitPostgres], and [top] the arena created first. *)
Definition bootstrap_calls (dbname name : string) (user : option string)
    (top : nat) : list Call.t :=
  [ Call.system (untar dbname);
    Call.get_progname argv0;
    Call.MemoryContextInit;
    Call.get_user_name_or_exit (Some "postgres");
    Call.strdup name;
    Call.InitStandaloneProcess argv0;
    Call.SetProcessingMode InitProcessing;
    Call.InitializeGUCOptions;
    Call.process_postgres_switches 4 (argv dbname) PGC_POSTMASTER None;
    Call.SelectConfigFiles (arg_path dbname) (Some "postgres");
    Call.checkDataDir;
    Call.ChangeToDataDir;
    Call.CreateDataDirLockFile false;
    Call.LocalProcessControlFile false;
    Call.InitializeMaxBackends;
    Call.BaseInit;
    Call.InitProcess;
    Call.PG_SETMASK UnBlockSig;
    Call.InitPostgres "dbfuzz" InvalidOid user InvalidOid None false;
    Call.SetProcessingMode NormalProcessing;
    Call.BeginReportingGUCOptions;
    Call.process_session_preload_libraries;
    Call.AllocSetContextCreate (Some top) "MessageContext";
    Call.AllocSetContextCreate (Some top) "RowDescriptionContext";
    Call.MemoryContextSwitchTo (Some (top + 2));
    Call.initStringInfo;
    Call.MemoryContextSwitchTo (Some top);
    Call.GetCurrentTimestamp;
    Call.atexit fuzzer_exit_fn ].

(** The calls that go to a collaborator and may end the process. *)
Definition is_collaborator (c : Call.t) : bool :=
  match c with
  | Call.MemoryContextInit
  | Call.InitStandaloneProcess _
  | Call.InitializeGUCOptions
  | Call.process_postgres_switches _ _ _ _
  | Call.SelectConfigFiles _ _
  | Call.checkDataDir
  | Call.ChangeToDataDir
  | Call.CreateDataDirLockFile _
  | Call.LocalProcessControlFile _
  | Call.InitializeMaxBackends
  | Call.BaseInit
  | Call.InitProcess
  | Call.PG_SETMASK _
  | Call.InitPostgres _ _ _ _ _ _
  | Call.BeginReportingGUCOptions
  | Call.process_session_preload_libraries
  | Call.AllocSetContextCreate _ _
  | Call.initStringInfo => true
  | _ => false
  end.

(** The [-D] argument the source means to build at line 54, untruncated:
    the data directory name between two double-quote bytes. *)
Definition data_dir_switch (dbname : string) : string :=
  "-D" +:+ CString.dquote +:+ data_dir_name dbname +:+ CString.dquote.

(** ** More concrete runs *)

Module Variants.

(** The system knows no user for the process. *)
Definition anonymous_env : environment nat :=
  mkEnv (fun _ f e => Some (f, S e))
        (fun _ => None)
        (fun e => Z.of_nat e)
        (fun _ _ => true)
        Scenario.decode.

(** The C allocator has no room. *)
Definition exhausted_env : environment nat :=
  mkEnv (fun _ f e => Some (f, S e))
        (fun _ => Some "fuzz")
        (fun e => Z.of_nat e)
        (fun _ _ => false)
        Scenario.decode.

(** A disk without the snapshot archive, with a stale tree under
    [/tmp/fz2] and a tree under [/tmp/fz1]. *)
Definition bare_disk : Shell.filesystem :=
  Shell.mkFs
    (list_to_map
       [ (["tmp"], Shell.Dir);
         (["work"], Shell.Dir);
         (["tmp"; "fz1"], Shell.Dir);
         (["tmp"; "fz1"; "data"], Shell.Dir);
         (["tmp"; "fz2"], Shell.Dir);
         (["tmp"; "fz2"; "stale"], Shell.File "old") ])
    ["work"].

Definition bare_boot : world nat := initial_world bare_disk 0.

(** The ends of a run with no room for the identity string, and of a
    second run started where the first ended. *)
Definition unnamed : world nat :=
  final (FuzzerInitialize exhausted_env "fz1" Scenario.boot).
Definition finished_twice : world nat :=
  final (FuzzerInitialize Scenario.env "fz1" Scenario.finished).

End Variants.

(** * Properties *)

(** ** Strings *)

Module CStringFacts.
Import CString.

Lemma length_take n s : String.length (take n s) = Nat.min n (String.length s).
Proof.
  revert s; induction n as [|n IH]; intros [|c s]; simpl; auto.
Qed.

Lemma take_all n s : String.length s <= n -> take n s = s.
Proof.
  revert s; induction n as [|n IH]; intros [|c s]; simpl; intros H;
    try reflexivity; try lia.
  f_equal. apply IH. lia.
Qed.

Lemma take_app_l n s t : n <= String.length s -> take n (s +:+ t) = take n s.
Proof.
  revert s; induction n as [|n IH]; intros [|c s]; simpl; intros H;
    try reflexivity; try lia.
  f_equal. apply IH. lia.
Qed.

Lemma length_app s t :
  String.length (s +:+ t) = String.length s + String.length t.
Proof. induction s as [|c s IH]; simpl; auto. Qed.

Lemma app_nil_r s : s +:+ EmptyString = s.
Proof. induction s as [|c s IH]; simpl; congruence. Qed.

Lemma snprintf_fits size fmt args :
  0 < size -> footprint (snprintf size fmt args) <= size.
Proof.
  intros H. unfold footprint, snprintf. rewrite length_take. lia.
Qed.

Lemma take_shorter n s : n < String.length s -> take n s <> s.
Proof.
  intros H E. apply (f_equal String.length) in E.
  rewrite length_take in E. lia.
Qed.

End CStringFacts.

(** What the three [snprintf] calls of lines 53-55 expand before
    truncation. *)
Lemma arg_path_take dbname :
  arg_path dbname = CString.take 49 (data_dir_name dbname).
Proof. reflexivity. Qed.

Lemma untar_take dbname :
  untar dbname = CString.take 99 (provisioning_command dbname).
Proof.
  unfold untar, CString.snprintf, provisioning_command. f_equal.
  simpl. now rewrite CStringFacts.app_nil_r.
Qed.

Lemma length_data_dir_name dbname :
  String.length (data_dir_name dbname) = 10 + String.length dbname.
Proof.
  unfold data_dir_name. rewrite !CStringFacts.length_app. simpl. lia.
Qed.

Lemma length_provisioning_command dbname :
  String.length (provisioning_command dbname) = 60 + 3 * String.length dbname.
Proof.
  unfold provisioning_command. rewrite !CStringFacts.length_app. simpl. lia.
Qed.

Lemma untar_short dbname :
  String.length dbname <= 13 -> untar dbname = provisioning_command dbname.
Proof.
  intros H. rewrite untar_take. apply CStringFacts.take_all.
  rewrite length_provisioning_command. lia.
Qed.

(** C9. The three buffers are never overrun: each holds at most its size,
    terminator included.  An identifier whose data directory name fits in
    50 bytes gives that name; one whose name does not fit gives its first
    49 bytes, which differ from the name; and two identifiers of at least
    44 bytes with the same first 44 bytes give the same path. *)
Theorem fixed_buffers_truncate (dbname a b : string) :
  (CString.footprint (arg_path dbname) <= sizeof_arg_path
   /\ CString.footprint (path_to_db dbname) <= sizeof_path_to_db
   /\ CString.footprint (untar dbname) <= sizeof_untar)
  /\ (CString.footprint (data_dir_name dbname) <= sizeof_arg_path ->
      arg_path dbname = data_dir_name dbname)
  /\ (sizeof_arg_path < CString.footprint (data_dir_name dbname) ->
      arg_path dbname = CString.take 49 (data_dir_name dbname)
      /\ String.length (arg_path dbname) = 49
      /\ arg_path dbname <> data_dir_name dbname)
  /\ (44 <= String.length a -> 44 <= String.length b ->
      CString.take 44 a = CString.take 44 b ->
      arg_path a = arg_path b).
Proof.
  split; [|split; [|split]].
  - repeat split; apply CStringFacts.snprintf_fits; unfold sizeof_arg_path,
      sizeof_path_to_db, sizeof_untar; lia.
  - unfold CString.footprint, sizeof_arg_path. intros H.
    rewrite arg_path_take. apply CStringFacts.take_all. lia.
  - unfold CString.footprint, sizeof_arg_path. intros H.
    rewrite arg_path_take. split; [reflexivity|]. split.
    + rewrite CStringFacts.length_take. lia.
    + apply CStringFacts.take_shorter. lia.
  - intros Ha Hb E. rewrite !arg_path_take. unfold data_dir_name.
    change (CString.take 49 ("/tmp/" +:+ ?x))
      with ("/tmp/" +:+ CString.take 44 x).
    rewrite !CStringFacts.take_app_l by assumption. now rewrite E.
Qed.

(** ** The shell and the file system *)

Module ShellFacts.
Import Shell.

Lemma fields_free sep s : free_of sep s = true -> fields sep s = [s].
Proof.
  induction s as [|c s IH]; simpl; [reflexivity|].
  intros H. apply andb_prop in H as [Hc Hs].
  apply negb_true_iff in Hc. rewrite Hc, (IH Hs). reflexivity.
Qed.

Lemma fields_app_sep sep u v :
  free_of sep u = true ->
  fields sep (u +:+ String sep v) = u :: fields sep v.
Proof.
  induction u as [|c u IH]; simpl.
  - intros _. now rewrite Ascii.eqb_refl.
  - intros H. apply andb_prop in H as [Hc Hu].
    apply negb_true_iff in Hc. rewrite Hc, (IH Hu). reflexivity.
Qed.

Lemma free_of_plain sep s :
  ident_char sep = false -> all_chars ident_char s = true ->
  free_of sep s = true.
Proof.
  intros Hsep. induction s as [|c s IH]; simpl; [reflexivity|].
  intros H. apply andb_prop in H as [Hc Hs]. rewrite (IH Hs), andb_true_r.
  apply negb_true_iff. destruct (Ascii.eqb_spec c sep) as [->|]; [|reflexivity].
  congruence.
Qed.

(** The command of line 55, for an identifier that fits the buffer and is
    a plain file name, is read by the shell as three commands on
    [/tmp/{identifier}]. *)
Lemma words_provisioning_command dbname :
  free_of " " dbname = true ->
  and_list (words (provisioning_command dbname)) =
  [ ["rm"; "-rf"; "/tmp/" +:+ dbname];
    ["mkdir"; "/tmp/" +:+ dbname];
    ["tar"; "-xvf"; "data.tar.gz"; "-C"; "/tmp/" +:+ dbname] ].
Proof.
  intros H. unfold words, provisioning_command. simpl.
  rewrite (fields_app_sep " " dbname) by exact H. simpl.
  rewrite (fields_app_sep " " dbname) by exact H. simpl.
  rewrite (fields_free " " dbname) by exact H. reflexivity.
Qed.

Lemma resolve_tmp wd dbname :
  nonempty dbname = true -> free_of "/" dbname = true ->
  resolve wd ("/tmp/" +:+ dbname) = target_dir dbname.
Proof.
  intros Hn H. unfold resolve, components. simpl.
  rewrite (fields_free "/" dbname) by exact H. simpl. now rewrite Hn.
Qed.

Lemma resolve_archive wd : resolve wd "data.tar.gz" = wd ++ ["data.tar.gz"].
Proof. reflexivity. Qed.

(** Lookups after [rm -rf]. *)
Lemma rm_rf_under (target : list string) (fs : gmap (list string) node) (p : list string) :
  target `prefix_of` p -> rm_rf target fs !! p = None.
Proof.
  intros H. unfold rm_rf. apply map_lookup_filter_None. right.
  intros x _ Hn. apply Hn, H.
Qed.

Lemma rm_rf_outside (target : list string) (fs : gmap (list string) node) (p : list string) :
  ¬ target `prefix_of` p -> rm_rf target fs !! p = fs !! p.
Proof.
  intros H. unfold rm_rf. destruct (fs !! p) as [x|] eqn:E.
  - apply map_lookup_filter_Some. split; [exact E | exact H].
  - apply map_lookup_filter_None. left. exact E.
Qed.

(** Lookups after unpacking. *)
Lemma extract_outside (dest : list string) (members : list (list string * node)) (fs : gmap (list string) node) (p : list string) :
  ¬ dest `prefix_of` p -> extract dest members fs !! p = fs !! p.
Proof.
  intros H. unfold extract. revert fs.
  induction members as [|[q n] ms IH]; intros fs; simpl; [reflexivity|].
  rewrite IH. apply lookup_insert_ne. intros <-. apply H.
  apply prefix_app_r. reflexivity.
Qed.

Lemma extract_agree (dest : list string) (members : list (list string * node)) (f g : gmap (list string) node) (p : list string) :
  f !! p = g !! p -> extract dest members f !! p = extract dest members g !! p.
Proof.
  unfold extract. revert f g.
  induction members as [|[q n] ms IH]; intros f g H; simpl; [exact H|].
  apply IH. destruct (decide (dest ++ q = p)) as [<-|Hne].
  - now rewrite !lookup_insert_eq.
  - now rewrite !lookup_insert_ne.
Qed.

Lemma rm_rf_extract (target : list string) (members : list (list string * node)) (fs : gmap (list string) node) :
  rm_rf target (extract target members (<[target := Dir]> (rm_rf target fs)))
  = rm_rf target fs.
Proof.
  apply map_eq. intros p. destruct (decide (target `prefix_of` p)) as [H|H].
  - now rewrite !rm_rf_under.
  - rewrite (rm_rf_outside _ _ _ H), (extract_outside _ _ _ _ H).
    rewrite lookup_insert_ne; [reflexivity|]. intros <-. now apply H.
Qed.

Lemma target_not_prefix_of_tmp (dbname : string) : ¬ target_dir dbname `prefix_of` ["tmp"].
Proof. intros H. apply prefix_length in H. simpl in H. lia. Qed.

Section Provisioning.
Variable tar_gz_members : string -> option (list (list string * node)).

Lemma run_rm (p : string) (fs : filesystem) :
  run_utility tar_gz_members ["rm"; "-rf"; p] fs
  = (mkFs (rm_rf (resolve (cwd fs) p) (files fs)) (cwd fs), 0%Z).
Proof. reflexivity. Qed.

Lemma run_mkdir (p : string) (fs : filesystem) :
  run_utility tar_gz_members ["mkdir"; p] fs
  = with_files fs (mkdir (resolve (cwd fs) p) (files fs)) 1%Z.
Proof. reflexivity. Qed.

Lemma run_tar (a d : string) (fs : filesystem) :
  run_utility tar_gz_members ["tar"; "-xvf"; a; "-C"; d] fs
  = with_files fs
      (tar_xvf tar_gz_members (resolve (cwd fs) a) (resolve (cwd fs) d) (files fs))
      2%Z.
Proof. reflexivity. Qed.

Lemma run_and_list_ok (c : list string) (cs : list (list string))
    (fs fs1 : filesystem) :
  run_utility tar_gz_members c fs = (fs1, 0%Z) ->
  cs <> [] ->
  run_and_list tar_gz_members (c :: cs) fs = run_and_list tar_gz_members cs fs1.
Proof.
  intros H Hcs. simpl. rewrite H. simpl.
  destruct cs; [contradiction | reflexivity].
Qed.

Lemma run_and_list_last (c : list string) (fs : filesystem) :
  run_and_list tar_gz_members [c] fs = run_utility tar_gz_members c fs.
Proof.
  simpl. destruct (run_utility tar_gz_members c fs) as [f z]. simpl.
  destruct (z =? 0)%Z; reflexivity.
Qed.

(** One run of the provisioning command. *)
Lemma sh_provision (dbname : string) (fs : filesystem) (bytes : string)
    (members : list (list string * node)) :
  plain_identifier dbname = true ->
  files fs !! ["tmp"] = Some Dir ->
  files fs !! archive_path fs = Some (File bytes) ->
  tar_gz_members bytes = Some members ->
  ¬ target_dir dbname `prefix_of` archive_path fs ->
  sh tar_gz_members (provisioning_command dbname) fs =
  (mkFs (extract (target_dir dbname) members
           (<[target_dir dbname := Dir]> (rm_rf (target_dir dbname) (files fs))))
        (cwd fs), 0%Z).
Proof.
  intros Hp Htmp Har Hdec Hout.
  apply andb_prop in Hp as [Hne Hall].
  assert (Hsp : free_of " " dbname = true) by (apply free_of_plain; trivial).
  assert (Hsl : free_of "/" dbname = true) by (apply free_of_plain; trivial).
  unfold sh. rewrite (words_provisioning_command dbname Hsp).
  set (T := target_dir dbname) in *.
  assert (Hmk : mkdir T (rm_rf T (files fs))
                = Some (<[T := Dir]> (rm_rf T (files fs)))).
  { unfold mkdir, T, target_dir.
    rewrite rm_rf_under by reflexivity.
    unfold parent, is_dir. simpl.
    rewrite rm_rf_outside by apply target_not_prefix_of_tmp.
    now rewrite Htmp. }
  assert (Htar : tar_xvf tar_gz_members (cwd fs ++ ["data.tar.gz"]) T
                   (<[T := Dir]> (rm_rf T (files fs)))
                 = Some (extract T members (<[T := Dir]> (rm_rf T (files fs))))).
  { unfold tar_xvf. fold (archive_path fs).
    rewrite lookup_insert_ne by (intros E; apply Hout; rewrite <- E; reflexivity).
    rewrite rm_rf_outside by exact Hout. rewrite Har, Hdec.
    unfold is_dir, T, target_dir. now rewrite lookup_insert_eq. }
  erewrite run_and_list_ok; [| apply run_rm | discriminate].
  erewrite run_and_list_ok;
    [| rewrite run_mkdir; cbn [cwd files];
       rewrite (resolve_tmp _ dbname Hne Hsl); fold T; rewrite Hmk; reflexivity
     | discriminate].
  rewrite run_and_list_last, run_tar. cbn [cwd files].
  rewrite (resolve_tmp _ dbname Hne Hsl), resolve_archive.
  fold T. rewrite Htar. reflexivity.
Qed.

End Provisioning.

End ShellFacts.

(** ** Lists *)

Lemma lookup_snoc {A : Type} (l : list A) (x : A) : (l ++ [x]) !! length l = Some x.
Proof. apply list_lookup_middle. reflexivity. Qed.

Lemma snoc5 {A : Type} (l : list A) (a b c d e : A) :
  ((((l ++ [a]) ++ [b]) ++ [c]) ++ [d]) ++ [e] = l ++ [a; b; c; d; e].
Proof. now rewrite <- !app_assoc. Qed.

Lemma snoc2 {A : Type} (l : list A) (a b : A) :
  (l ++ [a]) ++ [b] = l ++ [a; b].
Proof. now rewrite <- app_assoc. Qed.

Lemma insert_snoc {A : Type} (l : list A) (x y : A) :
  <[length l := y]> (l ++ [x]) = l ++ [y].
Proof.
  induction l as [|a l IH]; simpl; [reflexivity|]. now rewrite IH.
Qed.

Lemma lookup_app_plus {A : Type} (l k : list A) (i : nat) :
  (l ++ k) !! (length l + i) = k !! i.
Proof.
  induction l as [|a l IH]; simpl; [reflexivity | exact IH].
Qed.

(** The program name derived from the binary path of line 57. *)
Lemma progname_postgres :
  List.last (Shell.fields "/" "tmp_install/usr/local/pgsql/bin/postgres")
    "tmp_install/usr/local/pgsql/bin/postgres" = "postgres".
Proof. reflexivity. Qed.

(** ** Execution *)

Section Execution.
Context {engine : Type}.

Lemma Returned_inj {A : Type} (a a' : A) (w w' : world engine) :
  Returned a w = Returned a' w' -> a = a' /\ w = w'.
Proof. intros H. injection H as -> ->. split; reflexivity. Qed.

Lemma Terminated_inj {A : Type} (h h' : halt) (w w' : world engine) :
  @Terminated engine A h w = Terminated h' w' -> h = h' /\ w = w'.
Proof. intros H. injection H as -> ->. split; reflexivity. Qed.

Lemma exec_app (b1 b2 : list (nat * M engine unit)) (w : world engine) :
  exec (b1 ++ b2) w =
  match exec b1 w with
  | Returned _ w1 => exec b2 w1
  | Terminated h w1 => Terminated h w1
  end.
Proof.
  revert w; induction b1 as [|[l m] b1 IH]; intros w; simpl.
  - reflexivity.
  - unfold bind. destruct (m w) as [[] w1|h w1]; [apply IH | reflexivity].
Qed.

Lemma preserves_exec (I : world engine -> Prop) (body : list (nat * M engine unit)) :
  Forall (fun s => preserves I s.2) body -> preserves I (exec body).
Proof.
  induction 1 as [|[l m] body Hm _ IH]; intros w Hw; simpl.
  - exact Hw.
  - unfold bind. specialize (Hm w Hw). simpl in Hm.
    destruct (m w) as [[] w1|h w1]; simpl in *; [apply IH, Hm | exact Hm].
Qed.

Lemma Forall_upto (P : nat * M engine unit -> Prop) line body :
  Forall P body -> Forall P (upto line body).
Proof.
  induction 1 as [|[l m] body Hm _ IH]; simpl; [constructor|].
  destruct (l <=? line); constructor; assumption.
Qed.

Lemma upto_split (l1 line : nat) (body : list (nat * M engine unit)) :
  l1 <= line -> upto line body = upto l1 body ++ upto line (after l1 body).
Proof.
  intros Hle. induction body as [|[l m] body IH]; simpl; [reflexivity|].
  destruct (l <=? l1) eqn:E1.
  - apply Nat.leb_le in E1.
    assert ((l <=? line) = true) as -> by (apply Nat.leb_le; lia).
    simpl. now rewrite IH.
  - reflexivity.
Qed.

Lemma upto_upto (l1 line : nat) (body : list (nat * M engine unit)) :
  line <= l1 -> upto line (upto l1 body) = upto line body.
Proof.
  intros Hle. induction body as [|[l m] body IH]; simpl; [reflexivity|].
  destruct (l <=? l1) eqn:E1; simpl.
  - destruct (l <=? line); [now rewrite IH | reflexivity].
  - apply Nat.leb_gt in E1.
    assert ((l <=? line) = false) as -> by (apply Nat.leb_gt; lia).
    reflexivity.
Qed.

(** An execution through [line] passes through the state after [l1]. *)
Lemma run_to_split (env : environment engine) (l1 line : nat) (dbname : string)
    (w0 w : world engine) :
  l1 <= line ->
  run_to env line dbname w0 = Returned tt w ->
  exists w1,
    run_to env l1 dbname w0 = Returned tt w1
    /\ exec (upto line (after l1 (FuzzerInitialize_body env dbname))) w1
       = Returned tt w.
Proof.
  intros Hle. unfold run_to.
  rewrite (upto_split l1 line) by exact Hle. rewrite exec_app.
  destruct (exec (upto l1 _) w0) as [[] w1|h w1]; [|discriminate].
  intros E. exists w1. split; [reflexivity | exact E].
Qed.

(** A property of the states reached through line [l1] that the later
    statements preserve holds at every later line. *)
Lemma run_to_later (env : environment engine) (I : world engine -> Prop)
    (l1 line : nat) (dbname : string) (w0 w : world engine) :
  l1 <= line ->
  (forall w1, run_to env l1 dbname w0 = Returned tt w1 -> I w1) ->
  Forall (fun s => preserves I s.2) (after l1 (FuzzerInitialize_body env dbname)) ->
  run_to env line dbname w0 = Returned tt w -> I w.
Proof.
  intros Hle H1 Hrest. unfold run_to in *.
  rewrite (upto_split l1 line) by exact Hle. rewrite exec_app.
  destruct (exec (upto l1 _) w0) as [[] w1|h w1] eqn:E1; [|discriminate].
  intros E2. specialize (H1 w1 eq_refl).
  pose proof (preserves_exec I _ (Forall_upto _ line _ Hrest) w1 H1) as HI.
  rewrite E2 in HI. exact HI.
Qed.

(** A property that the statements through line [l1] preserve holds in
    every state in which an execution that stops at or before [l1] ends. *)
Lemma run_to_earlier (env : environment engine) (I : world engine -> Prop)
    (l1 line : nat) (dbname : string) (w0 : world engine) :
  line <= l1 ->
  Forall (fun s => preserves I s.2) (upto l1 (FuzzerInitialize_body env dbname)) ->
  I w0 -> I (final (run_to env line dbname w0)).
Proof.
  intros Hle Hpre Hw0. unfold run_to.
  rewrite <- (upto_upto l1 line) by exact Hle.
  apply preserves_exec; [|exact Hw0].
  apply Forall_upto, Hpre.
Qed.

End Execution.

(** ** Symbolic execution

    [run_in H] evaluates the source functions in the hypothesis [H] on a
    state given field by field, and splits on every answer of a
    collaborator, leaving one goal per way the execution can end. *)

Ltac unfold_ops_in H :=
  cbv [FuzzerInitialize FuzzerInitialize_body run_to upto after Nat.leb nth
       exec bind ret gets modify invoke log system get_progname
       MemoryContextInit get_user_name_or_exit strdup SetProcessingMode
       AllocSetContextCreate MemoryContextSwitchTo initStringInfo
       GetCurrentTimestamp atexit stop pfree fuzzer_exit deref
       set_progname set_row_description_context set_row_description_buf
       set_username set_TopMemoryContext set_CurrentMemoryContext
       set_MessageContext set_Mode set_PgStartTime set_whereToSendOutput
       set_Log_destination set_contexts set_heap set_atexit_registered
       set_fs set_eng set_trace
       progname row_description_context row_description_buf username
       TopMemoryContext CurrentMemoryContext MessageContext Mode PgStartTime
       whereToSendOutput Log_destination contexts heap atexit_registered
       fs eng trace mc_name mc_parent mc_chunks] in H.

Ltac step_in H :=
  match type of H with
  | context [match collab ?env ?c ?f ?e with _ => _ end] =>
      destruct (collab env c f e) as [[? ?]|] eqn:?
  | context [match get_user_name ?env ?e with _ => _ end] =>
      destruct (get_user_name env e) eqn:?
  | context [if malloc_ok ?env ?e ?n then _ else _] =>
      destruct (malloc_ok env e n) eqn:?
  | context [(?l ++ [?x]) !! length ?l] =>
      rewrite (lookup_snoc l x) in H
  | context [match ?l !! ?i with _ => _ end] =>
      first [ match goal with
              | Hk : l !! i = _ |- _ => rewrite Hk in H
              end
            | destruct (l !! i) eqn:? ]
  | context [match ?o with Some _ => _ | None => _ end] =>
      is_var o; destruct o
  end; cbv beta iota in H.

(** An execution that did not return is not one that returned. *)
Ltac ended_in H :=
  lazymatch type of H with
  | Terminated _ _ = Returned _ _ => discriminate H
  | Returned _ _ = Terminated _ _ => discriminate H
  | _ => idtac
  end.

(** The local buffers are replaced by names while the statements run:
    nothing in the statements depends on what the buffers hold. *)
Ltac name_locals H :=
  try match type of H with
      | context [untar ?dbname] =>
          revert H;
          unfold global_state_initializer, argv;
          generalize (untar dbname), (arg_path dbname), (path_to_db dbname);
          let cmd := fresh "cmd" in
          let ap := fresh "ap" in
          let pdb := fresh "pdb" in
          intros cmd ap pdb H
      end.

Ltac run_in H :=
  unfold FuzzerInitialize, run_to, FuzzerInitialize_body, argv in H;
  name_locals H;
  unfold_ops_in H; repeat step_in H.

(** The value and the state of an execution that returned, the cause and
    the state of one that did not. *)
Ltac returned_in H :=
  ended_in H;
  lazymatch type of H with
  | Returned _ _ = Returned _ _ =>
      let Hv := fresh "Hv" in
      apply Returned_inj in H; destruct H as [Hv <-];
      try (rewrite <- Hv in * ); clear Hv
  | Terminated _ _ = Terminated _ _ =>
      let Hv := fresh "Hv" in
      apply Terminated_inj in H; destruct H as [Hv <-];
      try (rewrite <- Hv in * ); clear Hv
  | _ => idtac
  end.

(** The fields of a state built by [mkWorld]. *)
Ltac fields :=
  cbn [final progname row_description_context row_description_buf username
       TopMemoryContext CurrentMemoryContext MessageContext Mode PgStartTime
       whereToSendOutput Log_destination contexts heap atexit_registered
       fs eng trace mc_name mc_parent mc_chunks] in *.

(** All the ways the computation [m w] in the goal can end. *)
Ltac run_cases m :=
  let E := fresh "E" in
  let a := fresh "a" in
  let w1 := fresh "w" in
  let h := fresh "h" in
  destruct m as [a w1|h w1] eqn:E;
  run_in E; returned_in E; fields.

(** Preservation by one statement. *)
Ltac preserve_stmt :=
  let w := fresh "w" in
  let Hw := fresh "Hw" in
  intros w Hw; destruct w; cbn [snd];
  match goal with
  | |- context [final ?m] => run_cases m
  end;
  try assumption; try exact Hw.

(** ** The bootstrap *)

Section BootstrapFacts.
Context {engine : Type} (env : environment engine).

(** *** The exit hook *)

Lemma run_atexit_single (w : world engine) :
  atexit_registered w = [fuzzer_exit_fn] -> run_atexit w = fuzzer_exit w.
Proof.
  intros H. unfold run_atexit, bind, gets. rewrite H. simpl.
  unfold bind, ret. destruct (fuzzer_exit w) as [[] w1|h w1]; reflexivity.
Qed.

Lemma fuzzer_exit_unset (w : world engine) :
  username w = None -> fuzzer_exit w = Returned tt w.
Proof. intros H. unfold fuzzer_exit, bind, gets. rewrite H. reflexivity. Qed.

Lemma fuzzer_exit_live (w : world engine) (p : nat) (s : string) :
  username w = Some p -> heap w !! p = Some (Some s) ->
  fuzzer_exit w =
  Returned tt (set_trace (trace w ++ [Call.pfree p])
                 (set_heap (<[p := None]> (heap w)) w)).
Proof.
  intros H1 H2. unfold fuzzer_exit, bind, gets, pfree. rewrite H1, H2.
  reflexivity.
Qed.

Lemma fuzzer_exit_released (w : world engine) (p : nat) :
  username w = Some p -> heap w !! p = Some None ->
  fuzzer_exit w = Terminated (Undefined (Call.pfree p)) w.
Proof.
  intros H1 H2. unfold fuzzer_exit, bind, gets, pfree. rewrite H1, H2.
  reflexivity.
Qed.

(** What the bootstrap leaves registered, however it ends. *)
Lemma FuzzerInitialize_atexit dbname (w0 : world engine) :
  atexit_registered w0 = [] ->
  match FuzzerInitialize env dbname w0 with
  | Returned _ w =>
      atexit_registered w = [fuzzer_exit_fn]
      /\ exists pre, trace w = pre ++ [Call.atexit fuzzer_exit_fn]
  | Terminated _ w =>
      atexit_registered w = [] /\ run_atexit w = Returned tt w
  end.
Proof.
  intros H0. destruct w0. cbn in H0. subst.
  match goal with
  | |- context [FuzzerInitialize env dbname ?w] =>
      run_cases (FuzzerInitialize env dbname w)
  end.
  all: (split; [reflexivity|]); try reflexivity.
  all: eexists; reflexivity.
Qed.

(** C1 (as amended). One invocation of [fuzzer_exit] releases the identity
    string exactly once when [username] points at a live block, leaving
    [username] as it was, and is a no-op when [username] is unset.  After a
    completed [FuzzerInitialize], begun with no exit function registered,
    process exit runs the hook once: the identity string, if resolved, is
    live and is released exactly once. *)
Theorem identity_released_once_per_invocation dbname (w0 : world engine) r w :
  atexit_registered w0 = [] ->
  FuzzerInitialize env dbname w0 = Returned r w ->
  (forall w1 : world engine, username w1 = None -> fuzzer_exit w1 = Returned tt w1)
  /\ (forall (w1 : world engine) p s,
        username w1 = Some p -> heap w1 !! p = Some (Some s) ->
        exists w2, fuzzer_exit w1 = Returned tt w2
                   /\ trace w2 = trace w1 ++ [Call.pfree p]
                   /\ heap w2 = <[p := None]> (heap w1)
                   /\ username w2 = Some p)
  /\ run_atexit w = fuzzer_exit w
  /\ match username w with
     | Some p =>
         exists s w2, heap w !! p = Some (Some s)
                      /\ run_atexit w = Returned tt w2
                      /\ trace w2 = trace w ++ [Call.pfree p]
     | None => run_atexit w = Returned tt w
     end.
Proof.
  intros H0 H.
  assert (Hreg : atexit_registered w = [fuzzer_exit_fn]).
  { pose proof (FuzzerInitialize_atexit dbname w0 H0) as Hx.
    rewrite H in Hx. apply Hx. }
  assert (Hlive : match username w with
                  | Some p => exists s, heap w !! p = Some (Some s)
                  | None => True
                  end).
  { clear Hreg H0. destruct w0. run_in H; returned_in H; fields; trivial.
    rewrite lookup_snoc. eauto. }
  split; [exact fuzzer_exit_unset|]. split.
  - intros w1 p s H1 H2. eexists. split; [apply (fuzzer_exit_live w1 p s H1 H2)|].
    destruct w1; cbn in *. repeat split; assumption.
  - split; [apply run_atexit_single, Hreg|].
    rewrite (run_atexit_single w Hreg).
    destruct (username w) as [p|] eqn:Hu.
    + destruct Hlive as [s Hs]. exists s. eexists. split; [exact Hs|].
      split; [apply (fuzzer_exit_live w p s Hu Hs)|]. destruct w; reflexivity.
    + apply fuzzer_exit_unset, Hu.
Qed.

(** C10. The exit hook is registered by the last call before the return
    of a completed [FuzzerInitialize]; an execution that ends fatally has
    no exit function registered, so process exit releases nothing; and at
    no line before 106 is the hook registered. *)
Theorem exit_hook_registered_last dbname (w0 : world engine) :
  atexit_registered w0 = [] ->
  match FuzzerInitialize env dbname w0 with
  | Returned _ w =>
      atexit_registered w = [fuzzer_exit_fn]
      /\ exists pre, trace w = pre ++ [Call.atexit fuzzer_exit_fn]
  | Terminated _ w =>
      atexit_registered w = [] /\ run_atexit w = Returned tt w
  end
  /\ forall line, line < 106 ->
       atexit_registered (final (run_to env line dbname w0)) = [].
Proof.
  intros H0. split; [exact (FuzzerInitialize_atexit dbname w0 H0)|].
  intros line Hlt.
  apply (run_to_earlier env (fun w => atexit_registered w = []) 105);
    [lia | | exact H0].
  cbv [upto FuzzerInitialize_body Nat.leb].
  repeat (constructor; [preserve_stmt|]). constructor.
Qed.

(** *** The return value *)

(** C7. Whenever [FuzzerInitialize] returns, the status it returns is 0:
    an execution either returns 0 or does not return. *)
Theorem FuzzerInitialize_status dbname (w0 : world engine) r w :
  FuzzerInitialize env dbname w0 = Returned r w -> r = 0%Z.
Proof.
  unfold FuzzerInitialize, bind, ret.
  destruct (exec _ w0) as [[] w1|h w1]; intros H; [|discriminate H].
  now injection H as <- _.
Qed.

(** *** The order of the stages *)

Lemma init_before_alloc_sound (tr : list Call.t) (seen : bool) :
  init_before_alloc seen tr = true ->
  forall pre c post,
    tr = pre ++ c :: post -> is_allocation c = true ->
    seen = true \/ Call.MemoryContextInit ∈ pre.
Proof.
  revert seen. induction tr as [|a tr IH]; intros seen H pre c post E Hc.
  - destruct pre; discriminate E.
  - simpl in H. apply andb_prop in H as [H1 H2].
    destruct pre as [|b pre]; simpl in E; injection E as <- E.
    + rewrite Hc in H1. simpl in H1. left. exact H1.
    + destruct (IH _ H2 pre c post E Hc) as [Hs|Hin].
      * apply orb_prop in Hs as [Hs|Hs]; [left; exact Hs|].
        right. destruct a; try discriminate Hs. left.
      * right. right. exact Hin.
Qed.

(** C2. In every execution, completed or fatal, the calls of the Global
    State Initializer that have returned are an initial part of the chain
    arena subsystem, standalone mark, bootstrap processing mode,
    configuration defaults, argument list at postmaster level,
    configuration files, in that order; a completed execution has made all
    six; a step that ends the process was reached only after all its
    predecessors returned; and no allocation, from the C heap or from an
    arena, precedes the initialisation of the arena subsystem. *)
Theorem global_state_initializer_in_order dbname (w0 : world engine) :
  trace w0 = [] ->
  List.filter is_gsi_call (trace (final (FuzzerInitialize env dbname w0)))
    `prefix_of` global_state_initializer dbname
  /\ (forall r w, FuzzerInitialize env dbname w0 = Returned r w ->
        List.filter is_gsi_call (trace w) = global_state_initializer dbname)
  /\ (forall c w, FuzzerInitialize env dbname w0 = Terminated (Fatal c) w ->
        is_gsi_call c = true ->
        (List.filter is_gsi_call (trace w) ++ [c])
          `prefix_of` global_state_initializer dbname)
  /\ (forall pre c post,
        trace (final (FuzzerInitialize env dbname w0)) = pre ++ c :: post ->
        is_allocation c = true -> Call.MemoryContextInit ∈ pre)
  /\ (forall c w, FuzzerInitialize env dbname w0 = Terminated (Fatal c) w ->
        is_allocation c = true -> Call.MemoryContextInit ∈ trace w).
Proof.
  intros H0.
  assert (Hall :
    match FuzzerInitialize env dbname w0 with
    | Returned _ w =>
        List.filter is_gsi_call (trace w) = global_state_initializer dbname
        /\ init_before_alloc false (trace w) = true
    | Terminated h w =>
        init_before_alloc false (trace w) = true
        /\ match h with
           | Fatal c =>
               (if is_gsi_call c
                then (List.filter is_gsi_call (trace w) ++ [c])
                       `prefix_of` global_state_initializer dbname
                else List.filter is_gsi_call (trace w)
                       `prefix_of` global_state_initializer dbname)
               /\ (is_allocation c = true -> Call.MemoryContextInit ∈ trace w)
           | Undefined _ => False
           end
    end).
  { destruct w0. cbn in H0. subst.
    match goal with
  | |- context [FuzzerInitialize env dbname ?w] =>
      run_cases (FuzzerInitialize env dbname w)
  end.
    all: rewrite ?progname_postgres; cbn [app List.filter is_gsi_call].
    all: try (split; [reflexivity|]);
      try (split; [|cbn; first [discriminate | intros _; set_solver]]).
    all: cbn; try reflexivity; try (eexists; reflexivity). }
  destruct (FuzzerInitialize env dbname w0) as [r w|h w]; cbn [final].
  - destruct Hall as [Hf Hi]. split; [rewrite Hf; reflexivity|].
    split; [intros r' w' E; apply Returned_inj in E; destruct E as [_ <-]; exact Hf|].
    split; [intros c w' E; discriminate E|].
    split; [|intros c w' E; discriminate E].
    intros pre c post E Hc.
    destruct (init_before_alloc_sound _ _ Hi pre c post E Hc) as [F|Hin];
      [discriminate F | exact Hin].
  - destruct Hall as [Hi Hh]. destruct h as [c0|c0]; [|contradiction].
    destruct Hh as [Hp Ha].
    assert (Hpre : List.filter is_gsi_call (trace w)
                     `prefix_of` global_state_initializer dbname).
    { destruct (is_gsi_call c0); [|exact Hp].
      destruct Hp as [k Hk]. exists ([c0] ++ k). rewrite Hk.
      now rewrite <- app_assoc. }
    split; [exact Hpre|].
    split; [intros r' w' E; discriminate E|].
    split; [intros c w' E Hc; apply Terminated_inj in E; destruct E as [E <-];
            injection E as <-; rewrite Hc in Hp; exact Hp|].
    split.
    + intros pre c post E Hc.
      destruct (init_before_alloc_sound _ _ Hi pre c post E Hc) as [F|Hin];
        [discriminate F | exact Hin].
    + intros c w' E Hc. apply Terminated_inj in E. destruct E as [E <-].
      injection E as <-. exact (Ha Hc).
Qed.

(** C5. The processing mode is the bootstrap state after line 71; it is
    not normal in any state in which an execution stopping before line 88
    ends, returned or fatally; it becomes normal at line 88, directly
    after the four calls of the Backend Attach stage have returned; and it
    stays normal. *)
Theorem normal_mode_only_after_attach dbname (w0 : world engine) :
  Mode w0 <> NormalProcessing ->
  (forall w, run_to env 71 dbname w0 = Returned tt w -> Mode w = InitProcessing)
  /\ (forall line, line < 88 ->
        Mode (final (run_to env line dbname w0)) <> NormalProcessing)
  /\ (forall w, run_to env 88 dbname w0 = Returned tt w ->
        Mode w = NormalProcessing
        /\ exists pre user,
             trace w = pre ++ backend_attach user
                           ++ [Call.SetProcessingMode NormalProcessing])
  /\ (forall line w, 88 <= line ->
        run_to env line dbname w0 = Returned tt w -> Mode w = NormalProcessing).
Proof.
  intros H0. split; [|split; [|split]].
  - intros w H. destruct w0. run_in H; returned_in H; reflexivity.
  - intros line Hlt.
    apply (run_to_earlier env (fun w => Mode w <> NormalProcessing) 87);
      [lia | | exact H0].
    cbv [upto FuzzerInitialize_body Nat.leb].
    repeat (constructor; [preserve_stmt; discriminate|]). constructor.
  - intros w H. destruct w0. run_in H; returned_in H; fields.
    all: split; [reflexivity|].
    all: eexists _, _; unfold backend_attach; cbn [app]; apply snoc5.
  - intros line w Hle.
    apply (run_to_later env (fun w => Mode w = NormalProcessing) 88);
      [exact Hle | |].
    + clear. intros w1 H. destruct w0. run_in H; returned_in H; reflexivity.
    + cbv [after FuzzerInitialize_body Nat.leb].
      repeat (constructor; [preserve_stmt|]). constructor.
Qed.

(** C6. The start timestamp is not written before line 103, is the clock
    reading taken at line 103, and is not written again, nor is any
    collaborator called after it; the five calls of the Data Directory
    Binder have returned before it is taken, and if every collaborator
    call takes time the timestamp is strictly later than the clock reading
    at which the binder completed. *)
Theorem start_time_captured_once_after_binder dbname (w0 : world engine) :
  (forall line, line < 103 ->
     PgStartTime (final (run_to env line dbname w0)) = PgStartTime w0)
  /\ (forall line w103 w, 103 <= line ->
        run_to env 103 dbname w0 = Returned tt w103 ->
        run_to env line dbname w0 = Returned tt w ->
        PgStartTime w = PgStartTime w103 /\ eng w = eng w103)
  /\ (forall w81 w103,
        run_to env 81 dbname w0 = Returned tt w81 ->
        run_to env 103 dbname w0 = Returned tt w103 ->
        (exists pre, trace w81 = pre ++ data_directory_binder)
        /\ (exists mid, trace w103 = trace w81 ++ mid
                         /\ last mid = Some Call.GetCurrentTimestamp)
        /\ PgStartTime w103 = clock env (eng w103)
        /\ (clock_advances env -> (clock env (eng w81) < PgStartTime w103)%Z)).
Proof.
  split; [|split].
  - intros line Hlt.
    apply (run_to_earlier env (fun w => PgStartTime w = PgStartTime w0) 102);
      [lia | | reflexivity].
    cbv [upto FuzzerInitialize_body Nat.leb].
    generalize (PgStartTime w0). intros t0.
    repeat (constructor; [preserve_stmt|]). constructor.
  - intros line w103 w Hle H103.
    apply (run_to_later env
             (fun w => PgStartTime w = PgStartTime w103 /\ eng w = eng w103) 103);
      [exact Hle | |].
    + intros w1 H1. rewrite H1 in H103. apply Returned_inj in H103.
      destruct H103 as [_ <-]. split; reflexivity.
    + cbv [after FuzzerInitialize_body Nat.leb].
      generalize (PgStartTime w103), (eng w103). intros t0 e0.
      repeat (constructor; [preserve_stmt|]). constructor.
  - intros w81 w103 H81 H103.
    assert (Hpre : exists pre, trace w81 = pre ++ data_directory_binder).
    { clear H103. destruct w0. run_in H81; returned_in H81; fields.
      all: eexists; apply snoc5. }
    destruct (run_to_split env 81 103 dbname w0 w103) as [w1 [E1 E2]];
      [lia | exact H103 |].
    rewrite E1 in H81. apply Returned_inj in H81. destruct H81 as [_ <-].
    split; [exact Hpre|]. clear Hpre E1 H103.
    cbv [after upto FuzzerInitialize_body Nat.leb] in E2.
    destruct w1. run_in E2; returned_in E2; fields.
    all: split; [rewrite <- !app_assoc; eexists; split; reflexivity|].
    all: split; [reflexivity|].
    all: intros Hadv;
      repeat match goal with
             | Hc : collab env _ _ _ = Some _ |- _ => apply Hadv in Hc
             end; lia.
Qed.

(** *** The arenas *)

Lemma MemoryContextSwitchTo_selects (w : world engine) (c : option nat) :
  exists w1,
    MemoryContextSwitchTo c w = Returned (CurrentMemoryContext w) w1
    /\ CurrentMemoryContext w1 = c
    /\ contexts w1 = contexts w
    /\ MessageContext w1 = MessageContext w
    /\ row_description_context w1 = row_description_context w
    /\ row_description_buf w1 = row_description_buf w.
Proof.
  destruct w. eexists. split; [reflexivity|]. repeat split.
Qed.

(** C4. After a completed bootstrap the row-description arena and the
    message arena are two distinct children of the top-level arena, which
    has no parent; either can be made current without touching the other;
    the buffer holds one pre-sized chunk of the row-description arena and
    has zero length; and between the creation of the arena and the
    initialisation of the buffer nothing happens but the switch to the
    arena. *)
Theorem row_description_arena_ready dbname (w0 : world engine) r w :
  FuzzerInitialize env dbname w0 = Returned r w ->
  exists top mc rdc,
    TopMemoryContext w = Some top
    /\ MessageContext w = Some mc
    /\ row_description_context w = Some rdc
    /\ contexts w !! top = Some (mkContext "TopMemoryContext" None [])
    /\ contexts w !! mc = Some (mkContext "MessageContext" (Some top) [])
    /\ contexts w !! rdc
       = Some (mkContext "RowDescriptionContext" (Some top) [initial_buffer_size])
    /\ mc <> rdc
    /\ row_description_buf w
       = mkStringInfo (Some (rdc, 0)) 0 initial_buffer_size 0
    /\ (forall c, c = rdc \/ c = mc ->
          exists w1,
            MemoryContextSwitchTo (Some c) w = Returned (CurrentMemoryContext w) w1
            /\ CurrentMemoryContext w1 = Some c
            /\ contexts w1 = contexts w
            /\ MessageContext w1 = Some mc
            /\ row_description_context w1 = Some rdc)
    /\ (forall w96 w100,
          run_to env 96 dbname w0 = Returned tt w96 ->
          run_to env 100 dbname w0 = Returned tt w100 ->
          contexts w96 !! rdc
          = Some (mkContext "RowDescriptionContext" (Some top) [])
          /\ trace w100 = trace w96 ++ [ Call.MemoryContextSwitchTo (Some rdc);
                                         Call.initStringInfo ]
          /\ row_description_buf w100 = row_description_buf w).
Proof.
  intros H.
  exists (length (contexts w0)), (length (contexts w0) + 1),
         (length (contexts w0) + 2).
  assert (Hw :
    TopMemoryContext w = Some (length (contexts w0))
    /\ MessageContext w = Some (length (contexts w0) + 1)
    /\ row_description_context w = Some (length (contexts w0) + 2)
    /\ contexts w
       = contexts w0
         ++ [ mkContext "TopMemoryContext" None [];
              mkContext "MessageContext" (Some (length (contexts w0))) [];
              mkContext "RowDescriptionContext" (Some (length (contexts w0)))
                [initial_buffer_size] ]
    /\ row_description_buf w
       = mkStringInfo (Some (length (contexts w0) + 2, 0)) 0 initial_buffer_size 0).
  { destruct w0. run_in H; returned_in H; fields.
    all: rewrite insert_snoc, <- !app_assoc, !length_app; cbn [length app].
    all: rewrite <- ?Nat.add_assoc; cbn [Nat.add].
    all: repeat split; reflexivity. }
  destruct Hw as (Ht & Hm & Hr & Hc & Hb).
  split; [exact Ht|]. split; [exact Hm|]. split; [exact Hr|].
  split; [rewrite Hc; rewrite <- (Nat.add_0_r (length (contexts w0))) at 1;
          rewrite lookup_app_plus; reflexivity|].
  split; [rewrite Hc, lookup_app_plus; reflexivity|].
  split; [rewrite Hc, lookup_app_plus; reflexivity|].
  split; [lia|]. split; [exact Hb|]. split.
  - intros c Hcase.
    destruct (MemoryContextSwitchTo_selects w (Some c)) as (w1 & E & H1 & H2 & H3 & H4 & _).
    exists w1. rewrite H3, H4, Hm, Hr. repeat split; assumption.
  - intros w96 w100 H96 H100.
    destruct (run_to_split env 96 100 dbname w0 w100) as [w1 [E1 E2]];
      [lia | exact H100 |].
    rewrite E1 in H96. apply Returned_inj in H96. destruct H96 as [_ ->].
    clear H100. rename E1 into E96.
    assert (H96 :
      contexts w96 !! (length (contexts w0) + 2)
      = Some (mkContext "RowDescriptionContext" (Some (length (contexts w0))) [])
      /\ row_description_context w96 = Some (length (contexts w0) + 2)
      /\ length (contexts w96) = length (contexts w0) + 3).
    { clear E2 H Ht Hm Hr Hc Hb. destruct w0.
      run_in E96; returned_in E96; fields.
      all: rewrite <- !app_assoc, !length_app; cbn [length app].
      all: rewrite <- ?Nat.add_assoc; cbn [Nat.add].
      all: split; [rewrite lookup_app_plus; reflexivity|]; split; reflexivity. }
    destruct H96 as (Hl & Hr96 & Hlen). split; [exact Hl|].
    rewrite Hb. clear E96 H Ht Hm Hr Hc Hb.
    cbv [after upto FuzzerInitialize_body Nat.leb] in E2.
    revert Hl Hr96 Hlen E2. generalize (length (contexts w0)). intros n0.
    destruct w96. fields. intros Hl Hr96 Hlen E2. subst.
    run_in E2; returned_in E2; fields.
    all: split; [apply snoc2 | reflexivity].
Qed.

(** C8. When [FuzzerInitialize] returns the current arena is the top-level
    arena: the last switch selects it, only the timestamp and the [atexit]
    call follow, and the selection holds at every line from 101 on. *)
Theorem top_arena_current_on_return dbname (w0 : world engine) r w :
  FuzzerInitialize env dbname w0 = Returned r w ->
  (exists top, TopMemoryContext w = Some top /\ CurrentMemoryContext w = Some top)
  /\ (exists pre rdc top,
        row_description_context w = Some rdc /\ TopMemoryContext w = Some top /\
        trace w = pre ++ [ Call.MemoryContextSwitchTo (Some rdc);
                           Call.initStringInfo;
                           Call.MemoryContextSwitchTo (Some top);
                           Call.GetCurrentTimestamp;
                           Call.atexit fuzzer_exit_fn ])
  /\ (forall line w1, 101 <= line ->
        run_to env line dbname w0 = Returned tt w1 ->
        CurrentMemoryContext w1 = TopMemoryContext w1).
Proof.
  intros H. split; [|split].
  - destruct w0. run_in H; returned_in H; fields; eauto.
  - destruct w0. run_in H; returned_in H; fields;
      (eexists _, _, _; split; [reflexivity | split; [reflexivity | apply snoc5]]).
  - clear H. intros line w1 Hle.
    apply (run_to_later env (fun w => CurrentMemoryContext w = TopMemoryContext w) 101);
      [exact Hle | |].
    + clear. intros w1 H. destruct w0. run_in H; returned_in H; reflexivity.
    + cbv [after FuzzerInitialize_body Nat.leb].
      repeat (constructor; [preserve_stmt|]). constructor.
Qed.

(** *** The Dataset Provisioner *)

(** C3 (as amended). For an identifier of at most 13 bytes that is a plain
    file name, with [/tmp] a directory and a decodable [data.tar.gz] in
    the working directory and outside [/tmp/{identifier}], the command of
    line 55 succeeds, twice in a row; it leaves under [/tmp/{identifier}]
    exactly the directory and the archive members, whatever was there
    before, leaves every other path alone, and the second run leaves the
    file system as the first did. *)
Theorem provisioning_wipes_and_extracts (dbname : string) (w : world engine)
    (bytes : string) (members : list (list string * Shell.node)) :
  plain_identifier dbname = true ->
  String.length dbname <= 13 ->
  Shell.files (fs w) !! ["tmp"] = Some Shell.Dir ->
  Shell.files (fs w) !! archive_path (fs w) = Some (Shell.File bytes) ->
  tar_gz_members env bytes = Some members ->
  ¬ target_dir dbname `prefix_of` archive_path (fs w) ->
  exists w1 w2,
    system env (untar dbname) w = Returned 0%Z w1
    /\ system env (untar dbname) w1 = Returned 0%Z w2
    /\ Shell.files (fs w1)
       = Shell.extract (target_dir dbname) members
           (<[target_dir dbname := Shell.Dir]>
              (Shell.rm_rf (target_dir dbname) (Shell.files (fs w))))
    /\ (forall p : list string, target_dir dbname `prefix_of` p ->
          Shell.files (fs w1) !! p
          = Shell.extract (target_dir dbname) members
              {[ target_dir dbname := Shell.Dir ]} !! p)
    /\ (forall p : list string, ¬ target_dir dbname `prefix_of` p ->
          Shell.files (fs w1) !! p = Shell.files (fs w) !! p)
    /\ fs w2 = fs w1.
Proof.
  intros Hp Hlen Htmp Har Hdec Hout.
  set (T := target_dir dbname) in *.
  set (F1 := Shell.extract T members
               (<[T := Shell.Dir]> (Shell.rm_rf T (Shell.files (fs w))))).
  assert (Houtside : forall p : list string, ¬ T `prefix_of` p ->
            F1 !! p = Shell.files (fs w) !! p).
  { intros p Hn. unfold F1. rewrite ShellFacts.extract_outside by exact Hn.
    rewrite lookup_insert_ne by (intros <-; now apply Hn).
    now apply ShellFacts.rm_rf_outside. }
  assert (E1 : Shell.sh (tar_gz_members env) (untar dbname) (fs w)
               = (Shell.mkFs F1 (Shell.cwd (fs w)), 0%Z)).
  { rewrite (untar_short dbname Hlen).
    now apply (ShellFacts.sh_provision (tar_gz_members env) dbname (fs w) bytes members). }
  assert (E2 : Shell.sh (tar_gz_members env) (untar dbname)
                 (Shell.mkFs F1 (Shell.cwd (fs w)))
               = (Shell.mkFs F1 (Shell.cwd (fs w)), 0%Z)).
  { rewrite (untar_short dbname Hlen).
    rewrite (ShellFacts.sh_provision (tar_gz_members env) dbname _ bytes members);
      cbn [Shell.files Shell.cwd]; trivial.
    - unfold F1 at 1. fold T. now rewrite ShellFacts.rm_rf_extract.
    - rewrite Houtside; [exact Htmp | apply ShellFacts.target_not_prefix_of_tmp].
    - unfold archive_path in *. cbn [Shell.cwd]. now rewrite Houtside. }
  unfold system. rewrite E1. cbn [fst snd].
  eexists. eexists. split; [reflexivity|].
  cbn [fs set_fs set_trace]. rewrite E2. cbn [fst snd fs set_fs set_trace].
  split; [reflexivity|]. cbn [Shell.files].
  split; [reflexivity|]. split; [|split; [exact Houtside | reflexivity]].
  intros p Hu. unfold F1. apply ShellFacts.extract_agree.
  destruct (decide (T = p)) as [<-|Hne].
  - now rewrite lookup_insert_eq, lookup_singleton_eq.
  - rewrite lookup_insert_ne by exact Hne.
    rewrite lookup_singleton_ne by exact Hne.
    now apply ShellFacts.rm_rf_under.
Qed.

End BootstrapFacts.

(** ** The concrete run *)

Lemma scenario_completes :
  FuzzerInitialize Scenario.env "fz1" Scenario.boot
  = Returned 0%Z Scenario.finished.
Proof. vm_compute. reflexivity. Qed.

Lemma scenario_refused :
  FuzzerInitialize Scenario.locked_env "fz1" Scenario.boot
  = Terminated (Fatal (Call.CreateDataDirLockFile false)) Scenario.refused.
Proof. vm_compute. reflexivity. Qed.

Lemma scenario_clock_advances : clock_advances Scenario.env.
Proof.
  intros c f e f' e' H. cbn in H. injection H as _ <-. cbn. lia.
Qed.

Lemma FuzzerInitialize_status_witness :
  FuzzerInitialize Scenario.env "fz1" Scenario.boot
  = Returned 0%Z Scenario.finished
  /\ (0 = 0)%Z.
Proof.
  split; [vm_compute; reflexivity|].
  apply (FuzzerInitialize_status Scenario.env "fz1" Scenario.boot 0%Z
           Scenario.finished).
  vm_compute. reflexivity.
Defined.

Lemma top_arena_current_on_return_witness :
  FuzzerInitialize Scenario.env "fz1" Scenario.boot
  = Returned 0%Z Scenario.finished
  /\ CurrentMemoryContext Scenario.finished = TopMemoryContext Scenario.finished.
Proof.
  split; [vm_compute; reflexivity|].
  destruct (top_arena_current_on_return Scenario.env "fz1" Scenario.boot 0%Z
              Scenario.finished) as [[top [Ht Hc]] _];
    [vm_compute; reflexivity|].
  rewrite Ht, Hc. reflexivity.
Defined.

Lemma row_description_arena_ready_witness :
  FuzzerInitialize Scenario.env "fz1" Scenario.boot
  = Returned 0%Z Scenario.finished
  /\ exists rdc,
       row_description_context Scenario.finished = Some rdc
       /\ row_description_buf Scenario.finished
          = mkStringInfo (Some (rdc, 0)) 0 initial_buffer_size 0.
Proof.
  split; [vm_compute; reflexivity|].
  destruct (row_description_arena_ready Scenario.env "fz1" Scenario.boot 0%Z
              Scenario.finished)
    as (top & mc & rdc & _ & _ & Hr & _ & _ & _ & _ & Hb & _);
    [vm_compute; reflexivity|].
  exists rdc. split; [exact Hr | exact Hb].
Defined.

Lemma exit_hook_registered_last_witness :
  atexit_registered Scenario.boot = []
  /\ atexit_registered Scenario.refused = []
  /\ atexit_registered Scenario.finished = [fuzzer_exit_fn]
  /\ atexit_registered Scenario.after_capture = [].
Proof.
  split; [reflexivity|].
  pose proof (exit_hook_registered_last Scenario.locked_env "fz1"
                Scenario.boot eq_refl) as [Hr _].
  pose proof (exit_hook_registered_last Scenario.env "fz1"
                Scenario.boot eq_refl) as [Hf Hl].
  rewrite scenario_refused in Hr. rewrite scenario_completes in Hf.
  split; [apply Hr|]. split; [apply Hf|].
  apply (Hl 103). lia.
Defined.

Lemma identity_released_once_per_invocation_witness :
  atexit_registered Scenario.boot = []
  /\ FuzzerInitialize Scenario.env "fz1" Scenario.boot
     = Returned 0%Z Scenario.finished
  /\ exists w2,
       run_atexit Scenario.finished = Returned tt w2
       /\ trace w2 = trace Scenario.finished ++ [Call.pfree 0].
Proof.
  split; [reflexivity|]. split; [vm_compute; reflexivity|].
  destruct (identity_released_once_per_invocation Scenario.env "fz1"
              Scenario.boot 0%Z Scenario.finished)
    as (_ & _ & _ & H); [reflexivity | vm_compute; reflexivity |].
  assert (Hu : username Scenario.finished = Some 0) by reflexivity.
  rewrite Hu in H. destruct H as (s & w2 & _ & E & Ht).
  exists w2. split; [exact E | exact Ht].
Defined.

(** After a completed bootstrap, a second invocation of the hook releases
    the block the first one released. *)
Lemma fuzzer_exit_twice_double_free :
  exists w1,
    username Scenario.finished = Some 0
    /\ fuzzer_exit Scenario.finished = Returned tt w1
    /\ username w1 = Some 0
    /\ heap w1 !! 0 = Some None
    /\ fuzzer_exit w1 = Terminated (Undefined (Call.pfree 0)) w1.
Proof.
  eexists. split; [reflexivity|]. split; [vm_compute; reflexivity|].
  split; [reflexivity|]. split; [reflexivity|]. vm_compute. reflexivity.
Qed.

Lemma global_state_initializer_in_order_witness :
  trace Scenario.boot = []
  /\ List.filter is_gsi_call (trace Scenario.finished)
     = global_state_initializer "fz1"
  /\ List.filter is_gsi_call (trace Scenario.refused)
       `prefix_of` global_state_initializer "fz1".
Proof.
  split; [reflexivity|].
  destruct (global_state_initializer_in_order Scenario.env "fz1"
              Scenario.boot eq_refl) as (_ & Hall & _).
  destruct (global_state_initializer_in_order Scenario.locked_env "fz1"
              Scenario.boot eq_refl) as (Hpre & _).
  split; [exact (Hall 0%Z Scenario.finished scenario_completes) | exact Hpre].
Defined.

Lemma normal_mode_only_after_attach_witness :
  Mode Scenario.boot <> NormalProcessing
  /\ Mode Scenario.after_binder <> NormalProcessing
  /\ Mode Scenario.finished = NormalProcessing.
Proof.
  assert (H0 : Mode Scenario.boot <> NormalProcessing) by discriminate.
  split; [exact H0|].
  destruct (normal_mode_only_after_attach Scenario.env "fz1" Scenario.boot H0)
    as (_ & Hbefore & _ & Hafter).
  split; [apply (Hbefore 81); lia|].
  apply (Hafter 106 Scenario.finished); [lia | vm_compute; reflexivity].
Defined.

Lemma start_time_captured_once_after_binder_witness :
  clock_advances Scenario.env
  /\ run_to Scenario.env 81 "fz1" Scenario.boot
     = Returned tt Scenario.after_binder
  /\ run_to Scenario.env 103 "fz1" Scenario.boot
     = Returned tt Scenario.after_capture
  /\ (clock Scenario.env (eng Scenario.after_binder)
      < PgStartTime Scenario.after_capture)%Z
  /\ PgStartTime Scenario.finished = PgStartTime Scenario.after_capture.
Proof.
  split; [exact scenario_clock_advances|].
  assert (E81 : run_to Scenario.env 81 "fz1" Scenario.boot
                = Returned tt Scenario.after_binder)
    by (vm_compute; reflexivity).
  assert (E103 : run_to Scenario.env 103 "fz1" Scenario.boot
                 = Returned tt Scenario.after_capture)
    by (vm_compute; reflexivity).
  split; [exact E81|]. split; [exact E103|].
  destruct (start_time_captured_once_after_binder Scenario.env "fz1"
              Scenario.boot) as (_ & Hkeep & Hord).
  split.
  - destruct (Hord _ _ E81 E103) as (_ & _ & _ & Hlt).
    exact (Hlt scenario_clock_advances).
  - apply (Hkeep 106 Scenario.after_capture Scenario.finished);
      [lia | exact E103 | vm_compute; reflexivity].
Defined.

Lemma fixed_buffers_truncate_witness :
  Scenario.long_one <> Scenario.long_two
  /\ arg_path Scenario.long_one = arg_path Scenario.long_two
  /\ arg_path Scenario.long_one <> data_dir_name Scenario.long_one
  /\ arg_path "fz1" = data_dir_name "fz1".
Proof.
  destruct (fixed_buffers_truncate Scenario.long_one Scenario.long_one
              Scenario.long_two) as (_ & _ & Htrunc & Hsame).
  destruct (fixed_buffers_truncate "fz1" Scenario.long_one Scenario.long_two)
    as (_ & Hfit & _ & _).
  split; [discriminate|].
  split; [apply Hsame; [vm_compute; lia | vm_compute; lia | reflexivity]|].
  split; [apply Htrunc; vm_compute; lia | apply Hfit; vm_compute; lia].
Defined.

Lemma provisioning_wipes_and_extracts_witness :
  exists w1 w2,
    system Scenario.env (untar "fz1") Scenario.boot = Returned 0%Z w1
    /\ system Scenario.env (untar "fz1") w1 = Returned 0%Z w2
    /\ Shell.files (fs w1) !! ["tmp"; "fz1"; "stale"] = None
    /\ Shell.files (fs w1) !! ["tmp"; "fz1"; "data"; "PG_VERSION"]
       = Some (Shell.File "13")
    /\ fs w2 = fs w1.
Proof.
  destruct (provisioning_wipes_and_extracts Scenario.env "fz1" Scenario.boot
              "snapshot" Scenario.snapshot)
    as (w1 & w2 & E1 & E2 & _ & Hu & _ & Hsame);
    [reflexivity | vm_compute; lia | reflexivity | reflexivity | reflexivity
    | vm_compute; intros [k Hk]; discriminate Hk |].
  exists w1, w2. split; [exact E1|]. split; [exact E2|].
  split; [|split; [|exact Hsame]].
  - rewrite Hu by (exists ["stale"]; reflexivity). reflexivity.
  - rewrite Hu by (exists ["data"; "PG_VERSION"]; reflexivity). reflexivity.
Defined.

(** A 14-byte identifier: the third path of the command is cut short, the
    archive is not unpacked into the new directory and the command fails. *)
Lemma provisioning_long_identifier_fails :
  plain_identifier Scenario.fourteen = true
  /\ untar Scenario.fourteen
     = "rm -rf /tmp/fuzz_target_01 && mkdir /tmp/fuzz_target_01 && tar -xvf data.tar.gz -C /tmp/fuzz_target"
  /\ exists w1,
       system Scenario.env (untar Scenario.fourteen) Scenario.boot = Returned 2%Z w1
       /\ Shell.files (fs w1) !! ["tmp"; Scenario.fourteen] = Some Shell.Dir
       /\ Shell.files (fs w1) !! ["tmp"; Scenario.fourteen; "data"] = None.
Proof.
  split; [reflexivity|]. split; [reflexivity|].
  eexists. split; [vm_compute; reflexivity|]. split; reflexivity.
Qed.

(** * Further properties *)

(** ** The three buffers *)

Lemma string_app_assoc (s t u : string) : (s +:+ t) +:+ u = s +:+ (t +:+ u).
Proof. induction s as [|c s IH]; simpl; congruence. Qed.

Lemma path_to_db_take (dbname : string) :
  path_to_db dbname = CString.take 49 (data_dir_switch dbname).
Proof.
  unfold path_to_db, CString.snprintf, data_dir_switch, data_dir_name.
  f_equal. simpl. now rewrite !string_app_assoc.
Qed.

Lemma length_data_dir_switch (dbname : string) :
  String.length (data_dir_switch dbname) = 14 + String.length dbname.
Proof.
  unfold data_dir_switch. rewrite !CStringFacts.length_app.
  rewrite length_data_dir_name. simpl. lia.
Qed.

Lemma take_exact_iff (n : nat) (s : string) :
  CString.take n s = s <-> String.length s <= n.
Proof.
  split; [|apply CStringFacts.take_all].
  intros E. destruct (le_lt_dec (String.length s) n) as [H|H]; [exact H|].
  exfalso. exact (CStringFacts.take_shorter n s H E).
Qed.

Lemma buffers_intact (dbname : string) :
  (String.length dbname <= 39 -> arg_path dbname = data_dir_name dbname)
  /\ (String.length dbname <= 35 -> path_to_db dbname = data_dir_switch dbname).
Proof.
  rewrite arg_path_take, path_to_db_take, !take_exact_iff.
  rewrite length_data_dir_name, length_data_dir_switch. lia.
Qed.

(** X1. Each buffer holds what the source means to write exactly when the
    identifier is short enough, and the three limits differ: 39 bytes for
    the data directory name, 35 for the [-D] switch, 13 for the command. *)
Theorem buffer_thresholds (dbname : string) :
  (arg_path dbname = data_dir_name dbname <-> String.length dbname <= 39)
  /\ (path_to_db dbname = data_dir_switch dbname <-> String.length dbname <= 35)
  /\ (untar dbname = provisioning_command dbname <-> String.length dbname <= 13).
Proof.
  rewrite arg_path_take, path_to_db_take, untar_take, !take_exact_iff.
  rewrite length_data_dir_name, length_data_dir_switch,
    length_provisioning_command.
  repeat split; lia.
Qed.

(** X2. The value that follows [-D] in [argv[1]] always begins with a
    double-quote byte, so it is never the path given to
    [SelectConfigFiles]; up to 35 bytes of identifier it is that path
    between two double-quote bytes. *)
Theorem data_dir_switch_is_quoted (dbname : string) :
  (exists rest,
     path_to_db dbname = "-D" +:+ CString.dquote +:+ "/tmp/" +:+ rest)
  /\ path_to_db dbname <> "-D" +:+ arg_path dbname
  /\ (String.length dbname <= 35 ->
      path_to_db dbname
      = "-D" +:+ CString.dquote +:+ arg_path dbname +:+ CString.dquote).
Proof.
  split; [|split].
  - rewrite path_to_db_take. unfold data_dir_switch, data_dir_name.
    eexists. simpl. reflexivity.
  - rewrite path_to_db_take, arg_path_take.
    unfold data_dir_switch, data_dir_name. simpl. discriminate.
  - intros H.
    destruct (buffers_intact dbname) as [Ha Hp].
    rewrite (Hp H), (Ha ltac:(lia)). reflexivity.
Qed.

(** ** Provisioning on any file system *)

Module ProvisionFacts.
Import Shell.

Section AnyDisk.
Variable tar_gz_members : string -> option (list (list string * node)).

(** The three ways a wipe, a [mkdir] and an unpacking of the same path
    [t] can end: [mkdir] fails after the wipe, [tar] fails after the wipe
    and the [mkdir], or all three utilities succeed. *)
Lemma run_provision_cases (t : string) (fs : filesystem) :
  let T := resolve (cwd fs) t in
  let wiped := rm_rf T (files fs) in
  let r := run_and_list tar_gz_members
             [ ["rm"; "-rf"; t]; ["mkdir"; t];
               ["tar"; "-xvf"; "data.tar.gz"; "-C"; t] ] fs in
  r = (mkFs wiped (cwd fs), 1%Z)
  \/ r = (mkFs (<[T := Dir]> wiped) (cwd fs), 2%Z)
  \/ exists members,
       r = (mkFs (extract T members (<[T := Dir]> wiped)) (cwd fs), 0%Z).
Proof.
  intros T wiped r. subst r.
  erewrite ShellFacts.run_and_list_ok;
    [| apply ShellFacts.run_rm | discriminate].
  fold T. fold wiped.
  destruct (mkdir T wiped) as [made|] eqn:Hmk.
  - assert (made = <[T := Dir]> wiped) as ->.
    { revert Hmk. unfold mkdir. destruct T; [discriminate|].
      destruct (wiped !! _); [discriminate|].
      destruct (is_dir _ _); [|discriminate]. now intros [= <-]. }
    erewrite ShellFacts.run_and_list_ok;
      [| rewrite ShellFacts.run_mkdir; cbn [cwd files]; fold T;
         rewrite Hmk; reflexivity
       | discriminate].
    rewrite ShellFacts.run_and_list_last, ShellFacts.run_tar.
    cbn [cwd files]. fold T.
    destruct (tar_xvf _ _ _ _) as [unpacked|] eqn:Htar.
    + right; right. revert Htar. unfold tar_xvf.
      destruct (_ !! _) as [[|bytes]|]; try discriminate.
      destruct (tar_gz_members bytes) as [members|]; [|discriminate].
      destruct (is_dir _ _); [|discriminate].
      intros [= <-]. exists members. reflexivity.
    + right; left. reflexivity.
  - left. cbn [run_and_list].
    rewrite ShellFacts.run_mkdir. cbn [cwd files]. fold T.
    rewrite Hmk. reflexivity.
Qed.

(** The command of line 55, for a plain identifier. *)
Lemma sh_provision_cases (dbname : string) (fs : filesystem) :
  plain_identifier dbname = true ->
  let T := target_dir dbname in
  let wiped := rm_rf T (files fs) in
  let r := sh tar_gz_members (provisioning_command dbname) fs in
  r = (mkFs wiped (cwd fs), 1%Z)
  \/ r = (mkFs (<[T := Dir]> wiped) (cwd fs), 2%Z)
  \/ exists members,
       r = (mkFs (extract T members (<[T := Dir]> wiped)) (cwd fs), 0%Z).
Proof.
  intros Hp. apply andb_prop in Hp as [Hne Hall].
  assert (Hsp : free_of " " dbname = true)
    by (apply ShellFacts.free_of_plain; trivial).
  assert (Hsl : free_of "/" dbname = true)
    by (apply ShellFacts.free_of_plain; trivial).
  unfold sh. rewrite (ShellFacts.words_provisioning_command dbname Hsp).
  rewrite <- (ShellFacts.resolve_tmp (cwd fs) dbname Hne Hsl).
  apply run_provision_cases.
Qed.



Lemma other_target (a b : string) (p : list string) :
  a <> b -> target_dir b `prefix_of` p -> ¬ target_dir a `prefix_of` p.
Proof.
  intros Hab [k ->] [k' E]. unfold target_dir in E. cbn in E.
  apply Hab. congruence.
Qed.

(** The command leaves every path outside the target directory alone,
    however it ends. *)
Lemma sh_provision_outside (dbname : string) (fs : filesystem)
    (p : list string) :
  plain_identifier dbname = true ->
  ¬ target_dir dbname `prefix_of` p ->
  files (sh tar_gz_members (provisioning_command dbname) fs).1 !! p
  = files fs !! p.
Proof.
  intros Hp Hn.
  destruct (sh_provision_cases dbname fs Hp) as [E|[E|[members E]]];
    rewrite E; cbn [fst files].
  - now apply ShellFacts.rm_rf_outside.
  - rewrite lookup_insert_ne by (intros <-; now apply Hn).
    now apply ShellFacts.rm_rf_outside.
  - rewrite ShellFacts.extract_outside by exact Hn.
    rewrite lookup_insert_ne by (intros <-; now apply Hn).
    now apply ShellFacts.rm_rf_outside.
Qed.

End AnyDisk.

End ProvisionFacts.

Section ProvisioningAnywhere.
Context {engine : Type} (env : environment engine).


(** X4. Provisioning for one identifier never touches the directory of
    another: for a plain identifier [a] of at most 13 bytes and [b]
    different from [a], every path at or below [/tmp/b] is after the
    command for [a] what it was before, whether the command succeeds or
    not. *)
Theorem provisioning_spares_other_identifiers (a b : string)
    (f : Shell.filesystem) (p : list string) :
  plain_identifier a = true ->
  String.length a <= 13 ->
  a <> b ->
  target_dir b `prefix_of` p ->
  Shell.files (Shell.sh (tar_gz_members env) (untar a) f).1 !! p
  = Shell.files f !! p.
Proof.
  intros Hp Hlen Hab Hu. rewrite (untar_short a Hlen).
  apply ProvisionFacts.sh_provision_outside; [exact Hp|].
  now apply (ProvisionFacts.other_target a b p).
Qed.


End ProvisioningAnywhere.


Lemma provisioning_spares_other_identifiers_witness :
  Shell.files (Shell.sh Scenario.decode (untar "fz2") Variants.bare_disk).1
    !! ["tmp"; "fz1"; "data"]
  = Some Shell.Dir.
Proof.
  change Scenario.decode with (tar_gz_members Scenario.env).
  rewrite (provisioning_spares_other_identifiers Scenario.env "fz2" "fz1"
             Variants.bare_disk ["tmp"; "fz1"; "data"]);
    [reflexivity | reflexivity | vm_compute; lia | discriminate
    | exists ["data"]; reflexivity].
Defined.

(** ** The whole run *)

Lemma two_more {A : Type} (l : list A) (a b : A) :
  length ((l ++ [a]) ++ [b]) = length l + 2.
Proof. rewrite !length_app. simpl. lia. Qed.

(** The trace of a run as one list appended to the trace at the start. *)
Ltac tidy_trace :=
  rewrite ?progname_postgres, ?lookup_snoc, ?two_more;
  rewrite <- ?app_assoc; cbn [app mjoin option_join option_bind mbind];
  unfold argv0.

(** The identity a run has resolved and copied, if it got that far. *)
Ltac pick_identity :=
  lazymatch goal with
  | Hn : get_user_name _ _ = Some ?s, Hm : malloc_ok _ _ _ = true |- _ =>
      exists s, (Some s)
  | Hn : get_user_name _ _ = Some ?s |- _ => exists s, None
  | _ => exists EmptyString, None
  end.

(** A call is among those of a trace built by appending. *)
Ltac in_trace :=
  rewrite ?lookup_snoc; cbn [mjoin option_join option_bind mbind];
  repeat (apply elem_of_app;
          first [ right; apply list_elem_of_singleton; reflexivity | left ]).

(** A list built by appending extends the list it started from. *)
Ltac grows :=
  rewrite ?insert_snoc; repeat apply prefix_app_r; reflexivity.

Section WholeRun.
Context {engine : Type} (env : environment engine).

(** X6. The assignments of lines 103-105 come after the last call that
    can end the process: a completed run has output suppressed
    ([DestNone], log destination 0), and a run that ends fatally leaves
    the output destination, the log destination and the start time as
    they were. *)
Theorem output_suppressed_on_return dbname (w0 : world engine) :
  match FuzzerInitialize env dbname w0 with
  | Returned _ w =>
      whereToSendOutput w = DestNone /\ Log_destination w = 0%Z
  | Terminated _ w =>
      whereToSendOutput w = whereToSendOutput w0
      /\ Log_destination w = Log_destination w0
      /\ PgStartTime w = PgStartTime w0
  end.
Proof.
  destruct w0.
  match goal with
  | |- context [FuzzerInitialize env dbname ?w] =>
      run_cases (FuzzerInitialize env dbname w)
  end.
  all: repeat split.
Qed.

(** X7. A completed run makes exactly the calls of [bootstrap_calls], in
    that order and with those arguments, after whatever the trace held:
    the command of line 55 first, the exit hook last, the arenas created
    under the top arena, and [InitPostgres] given the string [username]
    points at. *)
Theorem completed_run_calls dbname (w0 : world engine) r w :
  FuzzerInitialize env dbname w0 = Returned r w ->
  exists name e,
    get_user_name env e = Some name
    /\ trace w = trace w0 ++ bootstrap_calls dbname name
                              (deref w (username w)) (length (contexts w0)).
Proof.
  intros H. unfold bootstrap_calls. destruct w0.
  run_in H; returned_in H; fields.
  all: match goal with
       | Hn : get_user_name env ?e = Some ?s |- _ => exists s, e; split; [exact Hn|]
       end.
  all: unfold deref; fields.
  all: tidy_trace.
  all: try reflexivity.
Qed.

(** X8. A run that does not complete was ended by one call that did not
    return, never by a call without defined behaviour: every call before
    it, in source order, has returned, none after it was made, and the
    state is the one in which that call was made. *)
Theorem fatal_run_stops_at_first_refusal dbname (w0 : world engine) h w :
  FuzzerInitialize env dbname w0 = Terminated h w ->
  exists name user c rest,
    h = Fatal c
    /\ trace w ++ c :: rest
       = trace w0 ++ bootstrap_calls dbname name user (length (contexts w0))
    /\ ((c = Call.get_user_name_or_exit (Some "postgres")
         /\ get_user_name env (eng w) = None)
        \/ (is_collaborator c = true
            /\ collab env c (fs w) (eng w) = None)).
Proof.
  intros H. unfold bootstrap_calls. destruct w0.
  run_in H; returned_in H; fields.
  all: pick_identity; eexists; eexists.
  all: split; [reflexivity|].
  all: split; [ tidy_trace; reflexivity |].
  all: rewrite ?lookup_snoc in *.
  all: first [ left; split; [reflexivity | assumption]
             | right; split; [reflexivity | assumption] ].
Qed.

(** What a completed run leaves registered and allocated, from any
    state. *)
Lemma FuzzerInitialize_identity dbname (w0 : world engine) r w :
  FuzzerInitialize env dbname w0 = Returned r w ->
  atexit_registered w = atexit_registered w0 ++ [fuzzer_exit_fn]
  /\ ((exists s, username w = Some (length (heap w0))
                 /\ heap w = heap w0 ++ [Some s])
      \/ (username w = None /\ heap w = heap w0)).
Proof.
  intros H. destruct w0.
  run_in H; returned_in H; fields.
  all: split; [reflexivity|].
  - left. eexists. split; reflexivity.
  - right. split; reflexivity.
Qed.

(** X9. Line 68 does not check the result of [strdup]: when the copy is
    made, [username] points at a new block holding the resolved name and
    [InitPostgres] receives that name; when the allocator has no room,
    [username] stays NULL, nothing is allocated, and the run goes on to
    hand NULL to [InitPostgres]. *)
Theorem identity_copy_unchecked dbname (w0 : world engine) r w :
  FuzzerInitialize env dbname w0 = Returned r w ->
  exists name e,
    get_user_name env e = Some name
    /\ if malloc_ok env e (CString.footprint name)
       then username w = Some (length (heap w0))
            /\ heap w = heap w0 ++ [Some name]
            /\ Call.InitPostgres "dbfuzz" InvalidOid (Some name)
                 InvalidOid None false ∈ trace w
       else username w = None
            /\ heap w = heap w0
            /\ Call.InitPostgres "dbfuzz" InvalidOid None
                 InvalidOid None false ∈ trace w.
Proof.
  intros H. destruct w0.
  run_in H; returned_in H; fields.
  all: match goal with
       | Hn : get_user_name env ?e = Some ?s, Hm : malloc_ok env ?e _ = _ |- _ =>
           exists s, e; split; [exact Hn|]; rewrite Hm
       end.
  all: split; [reflexivity|]; split; [reflexivity|].
  all: in_trace.
Qed.

(** X10. If no user name can be resolved, the run ends fatally at line
    68 at the latest: at [MemoryContextInit] or at the identity
    resolution itself, with [username], the heap, the registered exit
    functions and the processing mode as they were. *)
Theorem no_user_ends_before_setup dbname (w0 : world engine) :
  (forall e, get_user_name env e = None) ->
  exists c w,
    FuzzerInitialize env dbname w0 = Terminated (Fatal c) w
    /\ (c = Call.MemoryContextInit
        \/ c = Call.get_user_name_or_exit (Some "postgres"))
    /\ username w = username w0
    /\ heap w = heap w0
    /\ atexit_registered w = atexit_registered w0
    /\ Mode w = Mode w0.
Proof.
  intros Hu. destruct w0.
  match goal with
  | |- context [FuzzerInitialize env dbname ?w] =>
      run_cases (FuzzerInitialize env dbname w)
  end.
  all: try match goal with
           | Hn : get_user_name env ?e = Some _ |- _ =>
               exfalso; rewrite (Hu e) in Hn; discriminate Hn
           end.
  all: eexists; eexists; split; [reflexivity|].
  all: split; [first [left; reflexivity | right; reflexivity]|].
  all: repeat split.
Qed.

(** X11. The status of the provisioning command is discarded (line 63):
    when every engine call returns and a user name is known,
    [FuzzerInitialize] returns 0 from any state and for any identifier,
    whatever the command did. *)
Theorem bootstrap_completes_whatever_provisioning_did dbname (w0 : world engine) :
  (forall c f e, collab env c f e <> None) ->
  (forall e, get_user_name env e <> None) ->
  exists w, FuzzerInitialize env dbname w0 = Returned 0%Z w.
Proof.
  intros Hc Hu. destruct w0.
  match goal with
  | |- context [FuzzerInitialize env dbname ?w] =>
      run_cases (FuzzerInitialize env dbname w)
  end.
  all: try (eexists; reflexivity).
  all: exfalso.
  all: match goal with
       | Hn : collab env _ _ _ = None |- _ => exact (Hc _ _ _ Hn)
       | Hn : get_user_name env _ = None |- _ => exact (Hu _ Hn)
       end.
Qed.

(** X12. [fuzzer_exit] releases the block and leaves [username]
    pointing at it: a second invocation in the state the first one left
    releases the released block, which has no defined behaviour. *)
Theorem fuzzer_exit_second_call_undefined (w : world engine) (p : nat) (s : string) :
  username w = Some p ->
  heap w !! p = Some (Some s) ->
  exists w1,
    fuzzer_exit w = Returned tt w1
    /\ username w1 = Some p
    /\ heap w1 !! p = Some None
    /\ fuzzer_exit w1 = Terminated (Undefined (Call.pfree p)) w1.
Proof.
  intros Hu Hp. eexists. split; [exact (fuzzer_exit_live w p s Hu Hp)|].
  assert (Hlt : p < length (heap w)) by (apply lookup_lt_is_Some; eauto).
  split; [exact Hu|].
  split; [now apply list_lookup_insert_eq|].
  apply fuzzer_exit_released; [exact Hu | now apply list_lookup_insert_eq].
Qed.

Lemma run_atexit_pair (w : world engine) :
  atexit_registered w = [fuzzer_exit_fn; fuzzer_exit_fn] ->
  run_atexit w = bind fuzzer_exit (fun _ => fuzzer_exit) w.
Proof.
  intros H. unfold run_atexit, bind, gets. rewrite H.
  cbn [rev app map exec atexit_code]. unfold bind, ret.
  destruct (fuzzer_exit w) as [[] w1|h w1]; [|reflexivity].
  destruct (fuzzer_exit w1) as [[] w2|h w2]; reflexivity.
Qed.

(** X13. A second completed [FuzzerInitialize] registers the exit hook a
    second time and overwrites [username]: the block of the first run
    stays live with nothing pointing at it, and at process exit the two
    invocations of the hook release the second block twice, unless the
    second copy failed and [username] is NULL. *)
Theorem second_bootstrap_double_release dbname dbname' (w0 : world engine)
    r1 w1 r2 w2 :
  atexit_registered w0 = [] ->
  FuzzerInitialize env dbname w0 = Returned r1 w1 ->
  FuzzerInitialize env dbname' w1 = Returned r2 w2 ->
  atexit_registered w2 = [fuzzer_exit_fn; fuzzer_exit_fn]
  /\ (forall p, username w1 = Some p ->
        username w2 <> Some p /\ exists s, heap w2 !! p = Some (Some s))
  /\ match username w2 with
     | Some p =>
         exists w3, run_atexit w2 = Terminated (Undefined (Call.pfree p)) w3
     | None => run_atexit w2 = Returned tt w2
     end.
Proof.
  intros H0 H1 H2.
  destruct (FuzzerInitialize_identity dbname w0 r1 w1 H1) as [Hr1 Hi1].
  destruct (FuzzerInitialize_identity dbname' w1 r2 w2 H2) as [Hr2 Hi2].
  rewrite H0 in Hr1. rewrite Hr1 in Hr2. cbn [app] in Hr2.
  split; [exact Hr2|]. split.
  - intros p Hp.
    destruct Hi1 as [(s1 & Hu1 & Hh1)|[Hu1 _]]; [|congruence].
    assert (p = length (heap w0)) as -> by congruence.
    assert (Hlive : heap w1 !! length (heap w0) = Some (Some s1))
      by (rewrite Hh1; apply lookup_snoc).
    assert (Hlen : length (heap w1) = S (length (heap w0)))
      by (rewrite Hh1, length_app; simpl; lia).
    destruct Hi2 as [(s2 & Hu2 & Hh2)|[Hu2 Hh2]].
    + split; [rewrite Hu2, Hlen; intros [= E]; lia|].
      exists s1. rewrite Hh2, lookup_app_l by lia. exact Hlive.
    + split; [rewrite Hu2; discriminate|].
      exists s1. now rewrite Hh2.
  - rewrite (run_atexit_pair w2 Hr2). unfold bind.
    destruct Hi2 as [(s2 & Hu2 & Hh2)|[Hu2 Hh2]]; rewrite Hu2.
    + assert (Hlive : heap w2 !! length (heap w1) = Some (Some s2))
        by (rewrite Hh2; apply lookup_snoc).
      rewrite (fuzzer_exit_live w2 _ s2 Hu2 Hlive).
      eexists. apply fuzzer_exit_released; [exact Hu2|].
      apply list_lookup_insert_eq. apply lookup_lt_is_Some. eauto.
    + rewrite (fuzzer_exit_unset w2 Hu2). apply fuzzer_exit_unset, Hu2.
Qed.

(** X14. However a run ends, it has only appended: the trace, the heap,
    the arenas and the registered exit functions at the start are
    prefixes of those at the end, so no block or arena that existed
    before the call is released or altered. *)
Theorem bootstrap_only_appends dbname (w0 : world engine) :
  let w := final (FuzzerInitialize env dbname w0) in
  trace w0 `prefix_of` trace w
  /\ heap w0 `prefix_of` heap w
  /\ contexts w0 `prefix_of` contexts w
  /\ atexit_registered w0 `prefix_of` atexit_registered w.
Proof.
  cbv zeta. destruct w0.
  match goal with
  | |- context [FuzzerInitialize env dbname ?w] =>
      run_cases (FuzzerInitialize env dbname w)
  end.
  all: repeat split; grows.
Qed.

(** X15. For a plain identifier of at most 13 bytes, a path outside
    [/tmp/{identifier}] that no engine call alters holds at the end of
    the run, however it ends, what it held at the start: the bootstrap
    itself writes below [/tmp/{identifier}] only. *)
Theorem bootstrap_leaves_other_paths dbname (w0 : world engine)
    (p : list string) :
  plain_identifier dbname = true ->
  String.length dbname <= 13 ->
  ¬ target_dir dbname `prefix_of` p ->
  (forall c f e f' e', collab env c f e = Some (f', e') ->
     Shell.files f' !! p = Shell.files f !! p) ->
  Shell.files (fs (final (FuzzerInitialize env dbname w0))) !! p
  = Shell.files (fs w0) !! p.
Proof.
  intros Hp Hlen Hn Hc.
  pose proof (ProvisionFacts.sh_provision_outside (tar_gz_members env)
                dbname (fs w0) p Hp Hn) as Hsh.
  rewrite <- (untar_short dbname Hlen) in Hsh.
  remember (fs w0) as f0 eqn:Ef.
  destruct w0. cbn in Ef. subst f0.
  match goal with
  | |- context [FuzzerInitialize env dbname ?w] =>
      destruct (FuzzerInitialize env dbname w) as [a w1|h w1] eqn:E
  end.
  all: revert Hsh; run_in E; returned_in E; fields; intros Hsh.
  all: repeat match goal with
              | Hk : collab env _ _ _ = Some _ |- _ => apply Hc in Hk
              end.
  all: congruence.
Qed.

End WholeRun.

(** ** Further concrete runs *)

Lemma completed_run_calls_witness :
  FuzzerInitialize Scenario.env "fz1" Scenario.boot
  = Returned 0%Z Scenario.finished
  /\ trace Scenario.finished
     = bootstrap_calls "fz1" "fuzz" (Some "fuzz") 0.
Proof.
  split; [vm_compute; reflexivity|].
  destruct (completed_run_calls Scenario.env "fz1" Scenario.boot 0%Z
              Scenario.finished)
    as (name & e & Hn & Ht); [vm_compute; reflexivity|].
  cbn in Hn. injection Hn as <-.
  rewrite Ht. reflexivity.
Defined.

Lemma fatal_run_stops_at_first_refusal_witness :
  FuzzerInitialize Scenario.locked_env "fz1" Scenario.boot
  = Terminated (Fatal (Call.CreateDataDirLockFile false)) Scenario.refused
  /\ collab Scenario.locked_env (Call.CreateDataDirLockFile false)
       (fs Scenario.refused) (eng Scenario.refused) = None.
Proof.
  split; [vm_compute; reflexivity|].
  destruct (fatal_run_stops_at_first_refusal Scenario.locked_env "fz1"
              Scenario.boot (Fatal (Call.CreateDataDirLockFile false))
              Scenario.refused)
    as (name & user & c & rest & Hh & _ & [[Hc _]|[_ Hr]]);
    [vm_compute; reflexivity | |];
    injection Hh as <-; [discriminate Hc | exact Hr].
Defined.

Lemma identity_copy_unchecked_witness :
  FuzzerInitialize Variants.exhausted_env "fz1" Scenario.boot
  = Returned 0%Z Variants.unnamed
  /\ username Variants.unnamed = None
  /\ Call.InitPostgres "dbfuzz" InvalidOid None InvalidOid None false
       ∈ trace Variants.unnamed.
Proof.
  split; [vm_compute; reflexivity|].
  destruct (identity_copy_unchecked Variants.exhausted_env "fz1" Scenario.boot
              0%Z Variants.unnamed)
    as (name & e & _ & H); [vm_compute; reflexivity|].
  change (malloc_ok Variants.exhausted_env e (CString.footprint name))
    with false in H.
  destruct H as (Hu & _ & Ht). split; [exact Hu | exact Ht].
Defined.

Lemma no_user_ends_before_setup_witness :
  (forall e, get_user_name Variants.anonymous_env e = None)
  /\ exists c w,
       FuzzerInitialize Variants.anonymous_env "fz1" Scenario.boot
       = Terminated (Fatal c) w
       /\ username w = None /\ heap w = [].
Proof.
  split; [intros e; reflexivity|].
  destruct (no_user_ends_before_setup Variants.anonymous_env "fz1"
              Scenario.boot (fun e => eq_refl))
    as (c & w & E & _ & Hu & Hh & _).
  exists c, w. split; [exact E|]. split; [exact Hu | exact Hh].
Defined.

Lemma bootstrap_completes_whatever_provisioning_did_witness :
  (Shell.sh Scenario.decode (untar "fz2") Variants.bare_disk).2 = 2%Z
  /\ exists w,
       FuzzerInitialize Scenario.env "fz2" Variants.bare_boot = Returned 0%Z w.
Proof.
  split; [vm_compute; reflexivity|].
  apply (bootstrap_completes_whatever_provisioning_did Scenario.env "fz2"
           Variants.bare_boot).
  - intros c f e. discriminate.
  - intros e. discriminate.
Defined.

Lemma fuzzer_exit_second_call_undefined_witness :
  username Variants.finished_twice = Some 1
  /\ heap Variants.finished_twice !! 1 = Some (Some "fuzz")
  /\ exists w1,
       fuzzer_exit Variants.finished_twice = Returned tt w1
       /\ fuzzer_exit w1 = Terminated (Undefined (Call.pfree 1)) w1.
Proof.
  split; [reflexivity|]. split; [reflexivity|].
  destruct (fuzzer_exit_second_call_undefined Variants.finished_twice 1 "fuzz"
              eq_refl eq_refl) as (w1 & E1 & _ & _ & E2).
  exists w1. split; [exact E1 | exact E2].
Defined.

Lemma second_bootstrap_double_release_witness :
  atexit_registered Scenario.boot = []
  /\ atexit_registered Variants.finished_twice
     = [fuzzer_exit_fn; fuzzer_exit_fn]
  /\ username Variants.finished_twice <> Some 0
  /\ exists w3,
       run_atexit Variants.finished_twice
       = Terminated (Undefined (Call.pfree 1)) w3.
Proof.
  split; [reflexivity|].
  destruct (second_bootstrap_double_release Scenario.env "fz1" "fz1"
              Scenario.boot 0%Z Scenario.finished 0%Z Variants.finished_twice)
    as (Hreg & Hleak & Hexit);
    [reflexivity | vm_compute; reflexivity | vm_compute; reflexivity |].
  split; [exact Hreg|]. split.
  - exact (proj1 (Hleak 0 eq_refl)).
  - change (username Variants.finished_twice) with (Some 1) in Hexit.
    exact Hexit.
Defined.

Lemma bootstrap_leaves_other_paths_witness :
  Shell.files (fs (final (FuzzerInitialize Scenario.env "fz1" Scenario.boot)))
    !! ["work"; "data.tar.gz"]
  = Some (Shell.File "snapshot").
Proof.
  rewrite (bootstrap_leaves_other_paths Scenario.env "fz1" Scenario.boot
             ["work"; "data.tar.gz"]).
  - vm_compute. reflexivity.
  - reflexivity.
  - vm_compute. lia.
  - intros [k Hk]. discriminate Hk.
  - intros c f e f' e' Hc. cbn in Hc. injection Hc as <- _. reflexivity.
Defined.
